(** * Battery-aware AI task scheduler: a shallow embedding

    Embedding of [src/battery_scheduler/predictor.py],
    [src/battery_scheduler/power_monitor.py] and
    [src/battery_scheduler/scheduler.py].

    Conventions.
    - Python floats are idealised as rationals ([Q]): the numbers of the
      model are the finite ones (no NaN, no infinity) and arithmetic is
      exact. Every concrete input used below is exactly representable in
      binary64 and the inequalities at those inputs have a margin far above
      rounding error.
    - Python dicts built by the code with a fixed key set are records; keys a
      caller may omit, or values that may be [None], are [option] fields.
    - Sensor reads, the wall clock and the behaviour of the user's callable
      are inputs of the operation that performs the read. *)

From Stdlib Require Import ZArith QArith Qabs Lqa String.
From stdpp Require Import base list strings pretty.

Local Open Scope Q_scope.

(** ** Python helpers *)

(** [a < b] on floats, as a boolean. *)
Definition Qltb (a b : Q) : bool := negb (Qle_bool b a).

(** Python's [min(a, b)]: the first argument unless the second is smaller. *)
Definition py_min (a b : Q) : Q := if Qltb b a then b else a.

(** Truthiness of an [Optional[float]]: [None] and [0.0] are falsy. *)
Definition truthy_float (x : option Q) : bool :=
  match x with
  | Some v => negb (Qeq_bool v 0)
  | None => false
  end.

(** Truthiness of an [Optional[int]]. *)
Definition truthy_int (x : option Z) : bool :=
  match x with
  | Some v => negb (Z.eqb v 0)
  | None => false
  end.

(** Truthiness of an [Optional[bool]]. *)
Definition truthy_bool (x : option bool) : bool :=
  match x with
  | Some b => b
  | None => false
  end.

(** [d.get(k, dflt)] for a key that may be absent. *)
Definition get_default {A} (x : option A) (dflt : A) : A :=
  match x with
  | Some v => v
  | None => dflt
  end.

(** ** Configuration (the recognised keys of the YAML dict) *)

Record config := {
  battery_threshold_percent : option Q;   (* power.battery_threshold_percent *)
  adaptive_scheduling : option bool;      (* power.adaptive_scheduling *)
  low_power_mode : option bool;           (* power.low_power_mode *)
  thermal_threshold_celsius : option Q    (* profiling.thermal_threshold_celsius *)
}.

(** [load_config] returns [{}] when the file cannot be read. *)
Definition empty_config : config :=
  {| battery_threshold_percent := None; adaptive_scheduling := None;
     low_power_mode := None; thermal_threshold_celsius := None |}.

(** ** Sensors *)

(** The named tuple returned by [psutil.sensors_battery()]. *)
Record sbattery := {
  sb_percent : Q;
  sb_secsleft : Z;
  sb_power_plugged : option bool
}.

(** A battery read: [None] when psutil returns nothing or raises. *)
Definition battery_read := option sbattery.

(** A temperature read ([DeviceManager.get_current_temperature]). *)
Definition temperature_read := option Q.

(** ** predictor.py *)

Module Predictor.

(** The caller's description of a task; a key may be absent. *)
Record TaskDescription := {
  compute_ops : option Q;
  memory_mb : option Q;
  duration_seconds : option Q
}.

(** The dict returned by [_get_current_battery_state]: ['percent'] and
    ['plugged_in'] are always present, so that the defaults of the [.get]
    calls that read them are never used; ['plugged_in'] and ['time_left'] may
    hold [None]. *)
Record BatteryState := {
  percent : Q;
  plugged_in : option bool;
  time_left : option Z
}.

(** The dict returned by [predict_drain], with its four keys; the defaults
    of the [.get] calls that read it are never used. *)
Record Prediction := {
  estimated_drain_percent : Q;
  estimated_time_minutes : Q;
  current_battery_percent : Q;
  safe_to_execute : bool
}.

Definition _extract_features (task_description : TaskDescription) (tm_hour : Z)
  : list Q :=
  let compute_intensity := get_default (compute_ops task_description) 1000000000 / 1000000000 in
  let memory_usage := get_default (memory_mb task_description) 100 / 1000 in
  let duration_estimate := get_default (duration_seconds task_description) 1 in
  [compute_intensity; memory_usage; duration_estimate; inject_Z tm_hour / 24].

Definition _get_current_battery_state (battery : battery_read) : BatteryState :=
  match battery with
  | Some b =>
      {| percent := sb_percent b;
         plugged_in := sb_power_plugged b;
         time_left := if Z.eqb (sb_secsleft b) (-1) then None else Some (sb_secsleft b) |}
  | None =>
      {| percent := 80; plugged_in := Some false; time_left := Some 7200%Z |}
  end.

(** [np.sum] of a float array. *)
Definition np_sum (xs : list Q) : Q := fold_right Qplus 0 xs.

(** [_run_prediction], on finite numbers and in exact arithmetic: a NaN
    among the features, which [min] would hand on, and the rounding of very
    small products to zero are outside the model. *)
Definition _run_prediction (features : list Q) (current_state : BatteryState) : Q :=
  let base_drain := np_sum (firstn 3 features) * (1 # 2) in
  let base_drain :=
    if truthy_bool (plugged_in current_state) then base_drain * (1 # 2) else base_drain in
  let current_percent := percent current_state in
  let base_drain :=
    if Qltb current_percent 20 then base_drain * (6 # 5) else base_drain in
  py_min base_drain 10.

Definition _estimate_time_impact (drain_percent : Q) (current_state : BatteryState) : Q :=
  let current_percent := percent current_state in
  if truthy_int (time_left current_state) && Qltb 0 current_percent then
    let time_per_percent := inject_Z (get_default (time_left current_state) 0%Z) / current_percent in
    drain_percent * time_per_percent / 60
  else drain_percent * 5.

Definition _is_safe_to_execute (cfg : config) (estimated_drain : Q)
    (current_state : BatteryState) : bool :=
  let current_percent := percent current_state in
  let threshold := get_default (battery_threshold_percent cfg) 20 in
  if truthy_bool (plugged_in current_state) then true
  else if Qltb (current_percent - estimated_drain) threshold then false
  else true.

Definition predict_drain (cfg : config) (task_description : TaskDescription)
    (tm_hour : Z) (battery : battery_read) : Prediction :=
  let features := _extract_features task_description tm_hour in
  let current_state := _get_current_battery_state battery in
  let estimated_drain_percent := _run_prediction features current_state in
  let estimated_time_minutes := _estimate_time_impact estimated_drain_percent current_state in
  {| estimated_drain_percent := estimated_drain_percent;
     estimated_time_minutes := estimated_time_minutes;
     current_battery_percent := percent current_state;
     safe_to_execute := _is_safe_to_execute cfg estimated_drain_percent current_state |}.

(** One record of the calibration history. *)
Record drain_record := {
  dr_task_id : string;
  dr_actual_drain : Q;
  dr_timestamp : Q
}.

Definition record_actual_drain (history : list drain_record) (task_id : string)
    (actual_drain : Q) (now : Q) : list drain_record :=
  history ++ [{| dr_task_id := task_id; dr_actual_drain := actual_drain;
                 dr_timestamp := now |}].

(** The sum of the three workload features of a description. *)
Definition workload (td : TaskDescription) : Q :=
  get_default (compute_ops td) 1000000000 / 1000000000
  + get_default (memory_mb td) 100 / 1000
  + get_default (duration_seconds td) 1.

(** The drain before the clamp, as a positive multiple of the workload. *)
Definition scale (st : BatteryState) : Q :=
  (1 # 2) * (if truthy_bool (plugged_in st) then 1 # 2 else 1)
  * (if Qltb (percent st) 20 then 6 # 5 else 1).

End Predictor.

(** ** power_monitor.py *)

Module PowerMonitor.

Record thermal_status := {
  status : string;
  temperature : option Q;
  threshold : option Q
}.

Definition get_battery_percent (battery : battery_read) : option Q :=
  match battery with
  | Some b => Some (sb_percent b)
  | None => None
  end.

Definition get_thermal_status (cfg : config) (temp : temperature_read) : thermal_status :=
  let threshold := get_default (thermal_threshold_celsius cfg) 45 in
  match temp with
  | None => {| status := "unknown"; temperature := None; threshold := None |}
  | Some t =>
      let status :=
        if Qltb threshold t then "throttling"
        else if Qltb (threshold - 5) t then "warning"
        else "normal" in
      {| status := status; temperature := Some t; threshold := Some threshold |}
  end.

Definition is_thermal_throttling (cfg : config) (temp : temperature_read) : bool :=
  String.eqb (status (get_thermal_status cfg temp)) "throttling".

End PowerMonitor.

(** ** scheduler.py: the pure part *)

Module Rules.
Import Predictor.

Definition _apply_scheduling_rules (cfg : config) (prediction : Prediction)
    (priority : string) (temp : temperature_read) : bool * string :=
  let battery_state := prediction in
  if Qltb (current_battery_percent battery_state) 20
     && negb (String.eqb priority "critical")
  then (false, "Battery below threshold")
  else if negb (safe_to_execute prediction) && negb (String.eqb priority "critical")
  then (false, "Predicted drain too high")
  else
    let thermal_safe := negb (PowerMonitor.is_thermal_throttling cfg temp) in
    if negb thermal_safe && negb (String.eqb priority "critical")
    then (false, "Thermal throttling detected")
    else if String.eqb priority "critical"
    then (true, "Critical priority overrides constraints")
    else (true, "All checks passed").

(** [priority_map.get(priority_str, 50)]. *)
Definition priority_map (priority_str : string) : Z :=
  if String.eqb priority_str "critical" then 0
  else if String.eqb priority_str "high" then 10
  else if String.eqb priority_str "normal" then 50
  else if String.eqb priority_str "low" then 100
  else 50.

Definition _calculate_priority (priority_str : string) (prediction : Prediction) : Z :=
  let base_priority := priority_map priority_str in
  if safe_to_execute prediction then (base_priority - 5)%Z else base_priority.

End Rules.

(** ** Exceptions and results *)

(** [BaseException error] stands for an exception raised by a task body that
    is no instance of [Exception] ([SystemExit], [KeyboardInterrupt], ...). *)
Inductive exn := TypeError | IndexError | BaseException (error : string).

Inductive result (A : Type) :=
  | Ok (a : A)
  | Raise (e : exn).
Arguments Ok {A} a.
Arguments Raise {A} e.

(** ** heapq, as CPython runs it

    [queue.PriorityQueue] keeps its entries in a list ordered by [heapq].
    CPython runs the C implementation of [heapq], whose sift loops exchange
    two slots at each step; the comparison [x < y] of two entries may raise. *)

Module Heapq.
Section Heap.
Context {A : Type}.
Variable lt : A -> A -> result bool.

(** Exchange the slots [i] and [j]. *)
Definition swap (heap : list A) (i j : nat) : list A :=
  match heap !! i, heap !! j with
  | Some a, Some b => <[i:=b]> (<[j:=a]> heap)
  | _, _ => heap
  end.

(** [siftdown(heap, startpos, pos)]: the loop runs at most [pos] times,
    which is the fuel [heappush] and [siftup] give it. The second
    component is the exception that ended the loop, if any. *)
Fixpoint siftdown (fuel : nat) (heap : list A) (startpos pos : nat)
  : list A * option exn :=
  match fuel with
  | O => (heap, None)
  | S fuel' =>
      if (pos <=? startpos)%nat then (heap, None)
      else
        let parentpos := ((pos - 1) / 2)%nat in
        match heap !! pos, heap !! parentpos with
        | Some newitem, Some parent =>
            match lt newitem parent with
            | Raise e => (heap, Some e)
            | Ok false => (heap, None)
            | Ok true => siftdown fuel' (swap heap parentpos pos) startpos parentpos
            end
        | _, _ => (heap, None)
        end
  end.

(** The first loop of [siftup(heap, pos)]: bubble the smaller child up
    until [pos] is a leaf. Returns the heap, the final [pos], and the
    exception that ended the loop, if any. *)
Fixpoint siftup_loop (fuel : nat) (heap : list A) (pos : nat)
  : list A * nat * option exn :=
  match fuel with
  | O => (heap, pos, None)
  | S fuel' =>
      let endpos := length heap in
      let limit := (endpos / 2)%nat in
      if (limit <=? pos)%nat then (heap, pos, None)
      else
        let childpos := (2 * pos + 1)%nat in
        let pick :=
          if (childpos + 1 <? endpos)%nat then
            match heap !! childpos, heap !! (childpos + 1)%nat with
            | Some a, Some b =>
                match lt a b with
                | Raise e => Raise e
                | Ok true => Ok childpos
                | Ok false => Ok (childpos + 1)%nat
                end
            | _, _ => Ok childpos
            end
          else Ok childpos in
        match pick with
        | Raise e => (heap, pos, Some e)
        | Ok childpos => siftup_loop fuel' (swap heap childpos pos) childpos
        end
  end.

Definition siftup (heap : list A) (pos : nat) : list A * option exn :=
  let startpos := pos in
  match siftup_loop (length heap) heap pos with
  | (heap', _, Some e) => (heap', Some e)
  | (heap', pos', None) => siftdown pos' heap' startpos pos'
  end.

(** [heappush(heap, item)]: the item is appended before the sift, so it is
    in the list even when a comparison raises. *)
Definition heappush (heap : list A) (item : A) : list A * option exn :=
  let heap := heap ++ [item] in
  siftdown (length heap - 1) heap 0 (length heap - 1).

(** [heappop(heap)]: when a comparison raises during the sift, the
    smallest item has already left the list and is not returned. *)
Definition heappop (heap : list A) : list A * result A :=
  let n := length heap in
  match heap !! (n - 1)%nat with
  | None => (heap, Raise IndexError)
  | Some lastelt =>
      let heap := take (n - 1) heap in
      match heap !! 0%nat with
      | None => (heap, Ok lastelt)
      | Some returnitem =>
          match siftup (<[0%nat:=lastelt]> heap) 0 with
          | (heap', Some e) => (heap', Raise e)
          | (heap', None) => (heap', Ok returnitem)
          end
      end
  end.

End Heap.
End Heapq.

(** ** queue.PriorityQueue (unbounded) *)

Module PriorityQueue.
Section Queue.
Context {A : Type}.
Variable lt : A -> A -> result bool.

Inductive get_result :=
  | Blocks                                  (* empty queue: the caller waits *)
  | GetRaised (e : exn) (queue : list A)
  | Got (item : A) (queue : list A).

Definition empty (queue : list A) : bool :=
  match queue with
  | [] => true
  | _ :: _ => false
  end.

Definition put (queue : list A) (item : A) : list A * option exn :=
  Heapq.heappush lt queue item.

Definition get (queue : list A) : get_result :=
  if empty queue then Blocks
  else
    match Heapq.heappop lt queue with
    | (queue', Ok item) => Got item queue'
    | (queue', Raise e) => GetRaised e queue'
    end.

End Queue.
Arguments get_result : clear implicits.
End PriorityQueue.

(** ** scheduler.py: tasks, queue entries and the scheduler object *)

Module Scheduler.
Import Predictor Rules.

(** A callable is known by the identity of the function object; what a call
    does is an input of the step that makes the call. *)
Definition callable := nat.

(** The task dict built by [schedule]. [obj] is the identity of the dict
    object (Python's [id(task)]); it is no key of the dict. *)
Record task := {
  obj : nat;
  id : string;
  func : callable;
  description : TaskDescription;
  prediction : Prediction;
  priority : Z;
  should_execute : bool;
  reason : string;
  scheduled_time : Q
}.

(** The tuples [(priority_value, task)] held by the queue. *)
Definition entry : Type := Z * task.

(** *** Python comparison of queue entries *)

Definition opt_float_eqb (a b : option Q) : bool :=
  match a, b with
  | Some x, Some y => Qeq_bool x y
  | None, None => true
  | _, _ => false
  end.

Definition description_eqb (a b : TaskDescription) : bool :=
  opt_float_eqb (compute_ops a) (compute_ops b)
  && opt_float_eqb (memory_mb a) (memory_mb b)
  && opt_float_eqb (duration_seconds a) (duration_seconds b).

Definition prediction_eqb (a b : Prediction) : bool :=
  Qeq_bool (estimated_drain_percent a) (estimated_drain_percent b)
  && Qeq_bool (estimated_time_minutes a) (estimated_time_minutes b)
  && Qeq_bool (current_battery_percent a) (current_battery_percent b)
  && Bool.eqb (safe_to_execute a) (safe_to_execute b).

(** [t1 == t2] on task dicts: the same object, or equal values under every
    key; functions are equal only when they are the same object. *)
Definition task_eqb (a b : task) : bool :=
  Nat.eqb (obj a) (obj b)
  || (String.eqb (id a) (id b)
      && Nat.eqb (func a) (func b)
      && description_eqb (description a) (description b)
      && prediction_eqb (prediction a) (prediction b)
      && Z.eqb (priority a) (priority b)
      && Bool.eqb (should_execute a) (should_execute b)
      && String.eqb (reason a) (reason b)
      && Qeq_bool (scheduled_time a) (scheduled_time b)).

(** [x < y] on entries, as tuple comparison does it: the first components
    decide when they differ; otherwise the dicts are compared, and two
    dicts that are not equal have no order: [TypeError]. *)
Definition entry_lt (x y : entry) : result bool :=
  if negb (Z.eqb (fst x) (fst y)) then Ok (Z.ltb (fst x) (fst y))
  else if negb (task_eqb (snd x) (snd y)) then Raise TypeError
  else Ok false.

(** *** The scheduler object and its loop thread *)

(** Where the thread running [_scheduler_loop] stands. *)
Inductive loop_pc :=
  | NotStarted
  | AtHead                      (* about to test [self.is_running] *)
  | Requeue (e : entry)         (* in [time.sleep(60)], then puts [e] *)
  | Exited
  | Crashed (e : exn).          (* an exception left the loop *)

Record scheduler := {
  task_queue : list entry;
  is_running : bool;
  pc : loop_pc;
  history : list drain_record;    (* predictor.history *)
  next_obj : nat                  (* identities handed out so far *)
}.

Definition init : scheduler :=
  {| task_queue := []; is_running := false; pc := NotStarted;
     history := []; next_obj := 0 |}.

(** What an observer sees. *)
Inductive event :=
  | Created (t : task)                         (* [schedule] built the dict *)
  | LogScheduled (task_id : string) (priority_value : Z) (executable : bool)
  | LogExecuting (task_id : string)
  | Invoke (o : nat) (f : callable)            (* [task['func']()] *)
  | LogFailed (task_id : string) (error : string)
  | LogCompleted (task_id : string) (execution_time actual_drain : Q)
  | LogDeferred (task_id : string) (reason : string)
  | Sleep (seconds : Z).

(** What a call of the user's function does. *)
Inductive call_outcome :=
  | Returns
  | RaisesException (error : string)        (* an instance of [Exception] *)
  | RaisesBaseException (error : string).   (* any other exception *)

(** The reads made by one call of [schedule]. *)
Record schedule_reads := {
  sr_time_id : Q;               (* time.time() for the id *)
  sr_tm_hour : Z;               (* time.localtime().tm_hour *)
  sr_battery : battery_read;    (* psutil.sensors_battery() *)
  sr_temp : temperature_read;   (* the thermal zone *)
  sr_time_scheduled : Q         (* time.time() for 'scheduled_time' *)
}.

(** The reads made by one call of [_execute_task]. *)
Record execute_reads := {
  er_start_time : Q;
  er_battery_before : battery_read;
  er_outcome : call_outcome;
  er_end_time : Q;
  er_battery_after : battery_read;
  er_time_recorded : Q
}.

(** [int(x)]: truncation towards zero. *)
Definition py_int (x : Q) : Z := Z.quot (Qnum x) (Z.pos (Qden x)).

Definition default_description : TaskDescription :=
  {| compute_ops := Some 1000000000; memory_mb := Some 100;
     duration_seconds := Some 1 |}.

Definition set_queue (s : scheduler) (q : list entry) : scheduler :=
  {| task_queue := q; is_running := is_running s; pc := pc s;
     history := history s; next_obj := next_obj s |}.

Definition set_pc (s : scheduler) (p : loop_pc) : scheduler :=
  {| task_queue := task_queue s; is_running := is_running s; pc := p;
     history := history s; next_obj := next_obj s |}.

Definition set_history (s : scheduler) (h : list drain_record) : scheduler :=
  {| task_queue := task_queue s; is_running := is_running s; pc := pc s;
     history := h; next_obj := next_obj s |}.

Definition start (s : scheduler) : scheduler :=
  if is_running s then s
  else {| task_queue := task_queue s; is_running := true; pc := AtHead;
          history := history s; next_obj := next_obj s |}.

(** [stop] sets the flag and joins the thread: the thread finishes its
    iteration, reads the flag at the head of the loop and exits. The step is
    taken when the thread is not inside an iteration. *)
Definition stop (s : scheduler) : scheduler :=
  {| task_queue := task_queue s; is_running := false;
     pc := match pc s with AtHead => Exited | p => p end;
     history := history s; next_obj := next_obj s |}.

(** [schedule]: returns the new scheduler, what the caller gets (the task id,
    or the exception that left [put]) and the events. *)
Definition schedule (cfg : config) (s : scheduler) (task_func : callable)
    (priority : string) (task_description : option TaskDescription)
    (r : schedule_reads) : scheduler * result string * list event :=
  let task_id := "task_" +:+ pretty (py_int (sr_time_id r * 1000)) in
  let task_description := get_default task_description default_description in
  let prediction := predict_drain cfg task_description (sr_tm_hour r) (sr_battery r) in
  let '(should_execute, reason) :=
    _apply_scheduling_rules cfg prediction priority (sr_temp r) in
  let priority_value := _calculate_priority priority prediction in
  let task :=
    {| obj := next_obj s;
       id := task_id;
       func := task_func;
       description := task_description;
       prediction := prediction;
       priority := priority_value;
       should_execute := should_execute;
       reason := reason;
       scheduled_time := sr_time_scheduled r |} in
  let s := {| task_queue := task_queue s; is_running := is_running s; pc := pc s;
              history := history s; next_obj := S (next_obj s) |} in
  match PriorityQueue.put entry_lt (task_queue s) (priority_value, task) with
  | (q, Some e) => (set_queue s q, Raise e, [Created task])
  | (q, None) =>
      (set_queue s q, Ok task_id,
       [Created task; LogScheduled task_id priority_value should_execute])
  end.

Definition _should_retry (task : task) : bool :=
  Z.ltb (priority task) 50.

(** [_execute_task]: returns the new calibration history, the events, and
    the exception that leaves the call, if any. The clause [except Exception]
    catches the instances of [Exception]; any other exception leaves the
    call at once, before anything is read or recorded. *)
Definition _execute_task (history : list drain_record) (task : task)
    (r : execute_reads) : list drain_record * (list event * option exn) :=
  let task_id := id task in
  let start_time := er_start_time r in
  let battery_before := PowerMonitor.get_battery_percent (er_battery_before r) in
  match er_outcome r with
  | RaisesBaseException e =>
      (history, ([LogExecuting task_id; Invoke (obj task) (func task)],
                 Some (BaseException e)))
  | outcome =>
      let call :=
        match outcome with
        | RaisesException e => [Invoke (obj task) (func task); LogFailed task_id e]
        | _ => [Invoke (obj task) (func task)]
        end in
      let end_time := er_end_time r in
      let battery_after := PowerMonitor.get_battery_percent (er_battery_after r) in
      let actual_drain :=
        if truthy_float battery_before && truthy_float battery_after
        then get_default battery_before 0 - get_default battery_after 0
        else 0 in
      let execution_time := end_time - start_time in
      (record_actual_drain history task_id actual_drain (er_time_recorded r),
       ([LogExecuting task_id] ++ call
          ++ [LogCompleted task_id execution_time actual_drain],
        None))
  end.

(** One step of the thread running [_scheduler_loop]: from the head of the
    loop through one iteration, or, for a deferred task that is retried, up
    to [time.sleep(60)]; the [put] that follows the sleep is a step of its
    own, so that calls of [schedule] can fall between the two. *)
Definition loop_step (s : scheduler) (r : execute_reads) : scheduler * list event :=
  match pc s with
  | AtHead =>
      if negb (is_running s) then (set_pc s Exited, [])
      else if PriorityQueue.empty (task_queue s) then (s, [Sleep 1])
      else
        match PriorityQueue.get entry_lt (task_queue s) with
        | PriorityQueue.Blocks => (s, [])
        | PriorityQueue.GetRaised e q => (set_pc (set_queue s q) (Crashed e), [])
        | PriorityQueue.Got (priority, task) q =>
            if should_execute task then
              match _execute_task (history s) task r with
              | (h, (evs, Some e)) =>
                  (set_pc (set_history (set_queue s q) h) (Crashed e), evs)
              | (h, (evs, None)) =>
                  (set_history (set_queue s q) h, evs ++ [Sleep 1])
              end
            else if _should_retry task then
              (set_pc (set_queue s q) (Requeue ((priority + 1)%Z, task)),
               [LogDeferred (id task) (reason task); Sleep 60])
            else
              (set_queue s q, [LogDeferred (id task) (reason task); Sleep 1])
        end
  | Requeue e =>
      match PriorityQueue.put entry_lt (task_queue s) e with
      | (q, Some x) => (set_pc (set_queue s q) (Crashed x), [])
      | (q, None) => (set_pc (set_queue s q) AtHead, [Sleep 1])
      end
  | NotStarted | Exited | Crashed _ => (s, [])
  end.

(** *** Runs: interleavings of callers and the loop thread *)

Inductive action :=
  | Start
  | Stop
  | Schedule (task_func : callable) (priority : string)
      (task_description : option TaskDescription) (r : schedule_reads)
  | Loop (r : execute_reads).

(** An action that cannot be taken in [s] leaves it as it is: [Stop] while the
    thread is inside an iteration, [Loop] when no thread runs. *)
Definition apply (cfg : config) (s : scheduler) (a : action) : scheduler * list event :=
  match a with
  | Start => (start s, [])
  | Stop => match pc s with Requeue _ => (s, []) | _ => (stop s, []) end
  | Schedule f p d r => let '(s', _, evs) := schedule cfg s f p d r in (s', evs)
  | Loop r => loop_step s r
  end.

Fixpoint run (cfg : config) (s : scheduler) (acts : list action)
  : scheduler * list event :=
  match acts with
  | [] => (s, [])
  | a :: acts =>
      let '(s1, evs1) := apply cfg s a in
      let '(s2, evs2) := run cfg s1 acts in
      (s2, evs1 ++ evs2)
  end.

(** *** Vocabulary of the statements about runs *)

(** The entry the loop thread holds while it sleeps before a retry. *)
Definition held (s : scheduler) : list entry :=
  match pc s with
  | Requeue e => [e]
  | _ => []
  end.

(** The tasks that can still be dequeued: held by the thread or queued. *)
Definition live (s : scheduler) : list task := snd <$> (held s ++ task_queue s).

Definition invoked_of (e : event) : option nat :=
  match e with
  | Invoke o _ => Some o
  | _ => None
  end.

Definition created_of (e : event) : option task :=
  match e with
  | Created t => Some t
  | _ => None
  end.

(** The task objects whose function was called, in order, one per call. *)
Definition invoked (tr : list event) : list nat := omap invoked_of tr.

(** The task dicts built by [schedule], in order. *)
Definition created (tr : list event) : list task := omap created_of tr.

(** How often the function of task object [o] was called. *)
Definition invocations (o : nat) (tr : list event) : nat :=
  count_occ Nat.eq_dec (invoked tr) o.

(** The four ways a step can change the live tasks. *)
Inductive moves (s : scheduler) (evs : list event) (s' : scheduler) : Prop :=
  | moves_keep :
      live s' ≡ₚ live s -> created evs = [] -> invoked evs = [] ->
      next_obj s' = next_obj s -> moves s evs s'
  | moves_lose t :
      live s ≡ₚ t :: live s' -> created evs = [] -> invoked evs = [] ->
      next_obj s' = next_obj s -> moves s evs s'
  | moves_exec t :
      live s ≡ₚ t :: live s' -> should_execute t = true ->
      created evs = [] -> invoked evs = [obj t] ->
      next_obj s' = next_obj s -> moves s evs s'
  | moves_new t :
      live s' ≡ₚ t :: live s -> obj t = next_obj s ->
      next_obj s' = S (next_obj s) ->
      created evs = [t] -> invoked evs = [] -> moves s evs s'.

(** The invariant of runs: no task object is both live and invoked, or live
    twice, or invoked twice; live tasks are dicts built by [schedule], left
    as built; only tasks whose flag is set were invoked. *)
Record Inv (s : scheduler) (tr : list event) : Prop := {
  inv_nodup : NoDup ((obj <$> live s) ++ invoked tr);
  inv_created_nodup : NoDup (obj <$> created tr);
  inv_created_bound : forall t, t ∈ created tr -> (obj t < next_obj s)%nat;
  inv_live_created : forall t, t ∈ live s -> t ∈ created tr;
  inv_invoked_allowed :
    forall o, o ∈ invoked tr ->
    exists t, t ∈ created tr /\ obj t = o /\ should_execute t = true
}.

End Scheduler.

(** ** Concrete inputs used by the examples *)

Module Inputs.
Import Predictor Scheduler.


Definition cold_battery (p : Q) : sbattery :=
  {| sb_percent := p; sb_secsleft := 3600; sb_power_plugged := Some false |}.



(** A prediction as [predict_drain] gives it for the default description on
    a battery at 80 percent. *)
Definition safe_prediction : Prediction :=
  {| estimated_drain_percent := 21 # 20; estimated_time_minutes := 63 # 40;
     current_battery_percent := 80; safe_to_execute := true |}.

(** The same on a battery at 15 percent that is charging. *)
Definition low_battery_prediction : Prediction :=
  {| estimated_drain_percent := 63 # 100; estimated_time_minutes := 63 # 20;
     current_battery_percent := 15; safe_to_execute := true |}.

(** A thermal zone at 50 degrees, above the default threshold of 45. *)
Definition hot : temperature_read := Some 50.

(** Reads of a call of [schedule] at clock reading [t], with no battery
    sensor (the predictor falls back to 80 percent, unplugged) and no
    thermal zone. *)
Definition reads_at (t : Q) : schedule_reads :=
  {| sr_time_id := t; sr_tm_hour := 10; sr_battery := None; sr_temp := None;
     sr_time_scheduled := t |}.

(** Three clock readings: the first two lie in the same millisecond. *)
Definition t_a : Q := 1700000000 + (1 # 4).
Definition t_b : Q := 1700000000 + (1 # 4) + (1 # 4096).
Definition t_c : Q := 1700000000 + (1 # 2).

(** Reads of a call of [schedule] on a battery at [p] percent, unplugged. *)
Definition reads_on (p : Q) : schedule_reads :=
  {| sr_time_id := t_a; sr_tm_hour := 10; sr_battery := Some (cold_battery p);
     sr_temp := None; sr_time_scheduled := t_a |}.

(** Reads of an execution during which the battery goes from [before] to
    [after] percent and the function ends as [outcome] says. *)
Definition reads_exec (before after : Q) (outcome : call_outcome) : execute_reads :=
  {| er_start_time := t_c; er_battery_before := Some (cold_battery before);
     er_outcome := outcome; er_end_time := t_c + 1;
     er_battery_after := Some (cold_battery after); er_time_recorded := t_c + 1 |}.

(** Two submissions in the same millisecond, of different classes. *)
Definition same_millisecond : list action :=
  [Schedule 1%nat "high" None (reads_at t_a);
   Schedule 2%nat "normal" None (reads_at t_b)].

(** Two submissions of the default class, half a second apart. *)
Definition two_normal : list action :=
  [Schedule 1%nat "normal" None (reads_at t_a);
   Schedule 2%nat "normal" None (reads_at t_c)].

(** A High-class submission on a battery at 15 percent, then the loop. *)
Definition high_denied : list action :=
  [Schedule 7%nat "high" None (reads_on 15); Start;
   Loop (reads_exec 15 15 Returns); Loop (reads_exec 15 15 Returns);
   Loop (reads_exec 90 90 Returns); Loop (reads_exec 90 90 Returns)].

(** A Normal-class submission on a battery at 20.5 percent, then the loop. *)
Definition normal_denied : list action :=
  [Schedule 7%nat "normal" None (reads_on (41 # 2)); Start;
   Loop (reads_exec 90 90 Returns)].

(** A submission that passes the rules and whose function raises, then a
    second one. *)
Definition raising_then_next : list action :=
  [Schedule 1%nat "high" None (reads_at t_a);
   Schedule 2%nat "normal" None (reads_at t_c); Start;
   Loop (reads_exec 50 49 (RaisesException "boom"));
   Loop (reads_exec 49 48 Returns)].

(** The task dict built by the submission of [high_denied]. *)
Definition denied_task : task :=
  {| obj := 0; id := "task_1700000000250"; func := 7%nat;
     description := default_description;
     prediction := predict_drain empty_config default_description 10 (Some (cold_battery 15));
     priority := 10; should_execute := false; reason := "Battery below threshold";
     scheduled_time := t_a |}.

(** The task dict built by the first submission of [raising_then_next]. *)
Definition accepted_task : task :=
  {| obj := 0; id := "task_1700000000250"; func := 1%nat;
     description := default_description;
     prediction := predict_drain empty_config default_description 10 None;
     priority := 5; should_execute := true; reason := "All checks passed";
     scheduled_time := t_a |}.

(** Three submissions, of classes Low, Critical and High, then the loop. *)
Definition three_classes : list action :=
  [Schedule 1%nat "low" None (reads_at t_a);
   Schedule 2%nat "critical" None (reads_at t_b);
   Schedule 3%nat "high" None (reads_at t_c); Start;
   Loop (reads_exec 80 80 Returns); Loop (reads_exec 80 79 Returns);
   Loop (reads_exec 79 79 Returns)].

End Inputs.

(** ** predictor.py: the accuracy report *)

Module Calibration.
Import Predictor.

(** Python's [max(a, b)]: the first argument unless the second is larger. *)
Definition py_max (a b : Q) : Q := if Qltb a b then b else a.

(** [np.mean] of a non-empty list of floats. *)
Definition np_mean (xs : list Q) : Q := np_sum xs / inject_Z (Z.of_nat (length xs)).

(** [get_prediction_accuracy]. The records of the history are the dicts
    written by [record_actual_drain], which have no key ['predicted_drain']:
    [record.get('predicted_drain', 0)] is 0 for each of them. The mean and
    the difference [100 - mae * 10] are exact here; binary64 rounds them, so
    that a very small mean error is reported as 100. *)
Definition get_prediction_accuracy (history : list drain_record) : Q :=
  if (length history <? 2)%nat then 0
  else
    let errors :=
      (fun record =>
         let predicted := 0 in
         let actual := dr_actual_drain record in
         Qabs (predicted - actual)) <$> history in
    let mae := np_mean errors in
    let accuracy := py_max 0 (100 - mae * 10) in
    accuracy.

End Calibration.

(** ** core/device_manager.py: the parts the power monitor meets *)

Module DeviceManager.

(** [is_thermal_throttling(threshold_celsius)], on a temperature read. *)
Definition is_thermal_throttling (temp : temperature_read) (threshold_celsius : Q) : bool :=
  match temp with
  | Some t => Qltb threshold_celsius t
  | None => false
  end.

(** [_calculate_recommended_batch_size], on the ['available_memory_mb'] entry
    of the device info. *)
Definition _calculate_recommended_batch_size (available_memory_mb : option Q) : Z :=
  let available_mb := get_default available_memory_mb 1024 in
  if Qltb 4096 available_mb then 8
  else if Qltb 2048 available_mb then 4
  else if Qltb 1024 available_mb then 2
  else 1.

End DeviceManager.

(** ** power_monitor.py: the recommended mode *)

Module PowerModes.

Definition is_plugged_in (battery : battery_read) : option bool :=
  match battery with
  | Some b => sb_power_plugged b
  | None => Some false
  end.

(** [_recommend_power_mode]: the percentage and the plugged-in flag come from
    two reads of the battery, [battery_percent] and [battery_plugged]. *)
Definition _recommend_power_mode (cfg : config) (battery_percent battery_plugged : battery_read)
    (temp : temperature_read) : string :=
  let battery := PowerMonitor.get_battery_percent battery_percent in
  let plugged := is_plugged_in battery_plugged in
  let thermal := PowerMonitor.get_thermal_status cfg temp in
  if truthy_bool plugged then "performance"
  else if truthy_float battery && Qltb (get_default battery 0) 20 then "ultra_low_power"
  else if String.eqb (PowerMonitor.status thermal) "throttling" then "low_power"
  else if truthy_float battery && Qltb (get_default battery 0) 50 then "balanced"
  else "performance".

End PowerModes.

(** ** scheduler.py: the recommended time, and the facade of __init__.py *)

Module Advisor.
Import Predictor.

Record recommendation := {
  recommended : string;
  reason : string
}.

Definition get_optimal_execution_time (cfg : config) (battery : battery_read)
    (temp : temperature_read) (current_hour : Z) : recommendation :=
  let battery_state := _get_current_battery_state battery in
  let thermal_state := PowerMonitor.get_thermal_status cfg temp in
  let is_plugged := plugged_in battery_state in
  let battery_percent := percent battery_state in
  let is_thermal_ok := String.eqb (PowerMonitor.status thermal_state) "normal" in
  if truthy_bool is_plugged then
    {| recommended := "now"; reason := "Device is plugged in" |}
  else if Qltb 50 battery_percent && is_thermal_ok then
    {| recommended := "now"; reason := "Battery and thermal conditions are good" |}
  else if Qltb battery_percent 20 then
    {| recommended := "when_charging"; reason := "Battery too low" |}
  else if negb is_thermal_ok then
    {| recommended := "after_cooling"; reason := "Device needs cooling" |}
  else if (1 <=? current_hour)%Z && (current_hour <=? 6)%Z then
    {| recommended := "now"; reason := "Low-load window (night time)" |}
  else
    {| recommended := "deferred"; reason := "Suboptimal conditions, defer if possible" |}.

(** [BatteryScheduler.schedule_task]: no description is passed on. *)
Definition schedule_task (cfg : config) (s : Scheduler.scheduler)
    (task_func : Scheduler.callable) (priority : string) (r : Scheduler.schedule_reads)
  : Scheduler.scheduler * result string * list Scheduler.event :=
  Scheduler.schedule cfg s task_func priority None r.

End Advisor.

(** ** Further concrete inputs *)

Module MoreInputs.
Import Predictor Scheduler Inputs.

(** A battery that is charging, at [p] percent. *)
Definition charging_battery (p : Q) : sbattery :=
  {| sb_percent := p; sb_secsleft := (-2); sb_power_plugged := Some true |}.


(** Three submissions of the default class, then the loop: the queue holds
    three entries under the key 45. *)
Definition three_normal : list action :=
  [Schedule 1%nat "normal" None (reads_at t_a);
   Schedule 2%nat "normal" None (reads_at t_b);
   Schedule 3%nat "normal" None (reads_at t_c); Start;
   Loop (reads_exec 80 80 Returns)].

(** What callers and the thread do afterwards, without a call of [stop]. *)
Definition carry_on : list action :=
  [Start; Loop (reads_exec 80 80 Returns);
   Schedule 4%nat "critical" None (reads_at t_c);
   Loop (reads_exec 80 80 Returns); Start; Loop (reads_exec 80 80 Returns)].


End MoreInputs.

(** ** Further vocabulary of the statements about runs *)

Module RunVocabulary.
Import Predictor Scheduler.

Definition completed_of (e : event) : option (string * Q) :=
  match e with
  | LogCompleted task_id _ actual_drain => Some (task_id, actual_drain)
  | _ => None
  end.

(** The completions that were logged, in order: task id and drain. *)
Definition completed (tr : list event) : list (string * Q) := omap completed_of tr.


(** The entries that are queued or held by the loop thread. *)
Definition entries (s : scheduler) : list entry := held s ++ task_queue s.




(** What the log shows for one round of a deferred task that is retried. *)
Definition retry_round (t : task) : list event :=
  [LogDeferred (id t) (reason t); Sleep 60; Sleep 1].

(** An entry whose key is the stored priority of its task or above. *)
Definition key_ok (e : entry) : Prop := (priority (snd e) <= fst e)%Z.

(** Two steps of the loop thread, and [n] times two steps, on the same reads. *)
Definition run_two (s : scheduler) (r : execute_reads) : scheduler * list event :=
  let '(s1, evs1) := loop_step s r in
  let '(s2, evs2) := loop_step s1 r in
  (s2, evs1 ++ evs2).

Fixpoint run_rounds (n : nat) (s : scheduler) (r : execute_reads)
  : scheduler * list event :=
  match n with
  | O => (s, [])
  | S n =>
      let '(s1, evs1) := run_two s r in
      let '(s2, evs2) := run_rounds n s1 r in
      (s2, evs1 ++ evs2)
  end.

End RunVocabulary.

(** ** power_monitor.py: monitoring over a period *)

Module Monitoring.

(** The reads of one call of [monitor_power_consumption]: the battery before
    and after, the clock at the start, and the clock at each test of the
    loop, in order. What a sample holds is not kept: only their number is
    reported. *)
Record monitor_reads := {
  mr_initial : battery_read;
  mr_start_time : Q;
  mr_clock : list Q;
  mr_final : battery_read
}.

(** The dict that is returned. *)
Record power_report := {
  duration_seconds : Q;
  battery_drain_percent : Q;
  drain_rate_percent_per_hour : Q;
  samples : nat;
  initial_battery : option Q;
  final_battery : option Q
}.

Inductive monitor_outcome :=
  | StillSampling                       (* the reads end before the loop does *)
  | ZeroDivisionError                   (* [drain / duration_seconds] with a zero period *)
  | Report (report : power_report).

(** The sampling loop: one more sample for each test of the clock that
    finds the period not yet over. *)
Fixpoint sampling_loop (clock : list Q) (start_time duration_seconds : Q) (samples : nat)
  : option nat :=
  match clock with
  | [] => None
  | now :: clock =>
      if Qltb (now - start_time) duration_seconds
      then sampling_loop clock start_time duration_seconds (S samples)
      else Some samples
  end.

Definition monitor_power_consumption (duration_seconds : Q) (r : monitor_reads)
  : monitor_outcome :=
  let initial_percent := PowerMonitor.get_battery_percent (mr_initial r) in
  let start_time := mr_start_time r in
  match sampling_loop (mr_clock r) start_time duration_seconds 0 with
  | None => StillSampling
  | Some samples =>
      let final_percent := PowerMonitor.get_battery_percent (mr_final r) in
      if truthy_float initial_percent && truthy_float final_percent then
        let drain := get_default initial_percent 0 - get_default final_percent 0 in
        if Qeq_bool duration_seconds 0 then ZeroDivisionError
        else
          let drain_rate := (drain / duration_seconds) * 3600 in
          Report {| duration_seconds := duration_seconds;
                    battery_drain_percent := drain;
                    drain_rate_percent_per_hour := drain_rate;
                    samples := samples;
                    initial_battery := initial_percent;
                    final_battery := final_percent |}
      else
        Report {| duration_seconds := duration_seconds;
                  battery_drain_percent := 0;
                  drain_rate_percent_per_hour := 0;
                  samples := samples;
                  initial_battery := initial_percent;
                  final_battery := final_percent |}
  end.

(** Reads of a monitoring of a battery that goes from 60 to 59 percent. *)
Definition monitor_demo (clock : list Q) : monitor_reads :=
  {| mr_initial := Some {| sb_percent := 60; sb_secsleft := 3600; sb_power_plugged := Some false |};
     mr_start_time := 100;
     mr_clock := clock;
     mr_final := Some {| sb_percent := 59; sb_secsleft := 3500; sb_power_plugged := Some false |} |}.

(** The report of [monitor_demo] over one second with three tests of the
    clock, at 0, 0.5 and 1 seconds. *)
Definition demo_report : power_report :=
  {| duration_seconds := 1; battery_drain_percent := 60 - 59;
     drain_rate_percent_per_hour := (60 - 59) / 1 * 3600; samples := 2;
     initial_battery := Some 60; final_battery := Some 59 |}.

End Monitoring.

(** * Facts *)

(** ** Comparison helpers *)

Lemma Qltb_lt a b : Qltb a b = true <-> a < b.
Proof.
  unfold Qltb. rewrite negb_true_iff.
  destruct (Qle_bool b a) eqn:E.
  - apply Qle_bool_iff in E. split; [discriminate | intros H; lra].
  - split; [intros _ | reflexivity].
    destruct (Qlt_le_dec a b) as [H | H]; [exact H |].
    apply Qle_bool_iff in H. congruence.
Qed.

Lemma Qltb_ge a b : Qltb a b = false <-> b <= a.
Proof.
  destruct (Qltb a b) eqn:E.
  - apply Qltb_lt in E. split; [discriminate | intros H; lra].
  - split; [intros _ | reflexivity].
    destruct (Qlt_le_dec a b) as [H | H]; [| exact H].
    apply Qltb_lt in H. congruence.
Qed.

Lemma py_min_le_r a b : py_min a b <= b.
Proof.
  unfold py_min. destruct (Qltb b a) eqn:E.
  - lra.
  - apply Qltb_ge in E. exact E.
Qed.

Lemma py_min_nonneg a b : 0 <= b -> (0 <= py_min a b <-> 0 <= a).
Proof.
  intros Hb. unfold py_min. destruct (Qltb b a) eqn:E.
  - apply Qltb_lt in E. split; intros; lra.
  - reflexivity.
Qed.

(** ** The drain predictor *)

Module PredictorFacts.
Import Predictor Inputs.

Lemma np_sum_features td h :
  np_sum (firstn 3 (_extract_features td h)) == workload td.
Proof. unfold _extract_features, workload, np_sum. simpl. lra. Qed.

Lemma scale_pos st : 0 < scale st.
Proof.
  unfold scale. destruct (truthy_bool _), (Qltb _ _); lra.
Qed.

Lemma run_prediction_eq td h st :
  _run_prediction (_extract_features td h) st == py_min (workload td * scale st) 10.
Proof.
  unfold _run_prediction, scale.
  pose proof (np_sum_features td h) as Hs.
  set (s := np_sum _) in *.
  assert (Hmin : forall a b, a == b -> py_min a 10 == py_min b 10).
  { intros a b Hab. unfold py_min, Qltb.
    assert (Qle_bool a 10 = Qle_bool b 10) as ->.
    { destruct (Qle_bool a 10) eqn:Ea, (Qle_bool b 10) eqn:Eb; try reflexivity.
      - apply Qle_bool_iff in Ea. rewrite Hab in Ea. apply Qle_bool_iff in Ea. congruence.
      - apply Qle_bool_iff in Eb. rewrite <- Hab in Eb. apply Qle_bool_iff in Eb. congruence. }
    destruct (negb _); [reflexivity | exact Hab]. }
  apply Hmin.
  destruct (truthy_bool _), (Qltb _ _); rewrite Hs; lra.
Qed.

(** The drain lies below 10, and is non-negative exactly when the workload is. *)
Lemma run_prediction_bounds td h st :
  let d := _run_prediction (_extract_features td h) st in
  d <= 10 /\ (0 <= d <-> 0 <= workload td).
Proof.
  intros d. subst d. rewrite run_prediction_eq. split.
  - apply py_min_le_r.
  - rewrite py_min_nonneg by lra.
    pose proof (scale_pos st). split; intros; nra.
Qed.




Lemma safe_plugged cfg d st :
  truthy_bool (plugged_in st) = true -> _is_safe_to_execute cfg d st = true.
Proof. unfold _is_safe_to_execute. intros ->. reflexivity. Qed.

Lemma safe_unplugged cfg d st :
  truthy_bool (plugged_in st) = false ->
  (_is_safe_to_execute cfg d st = true
   <-> get_default (battery_threshold_percent cfg) 20 <= percent st - d).
Proof.
  unfold _is_safe_to_execute. intros ->.
  destruct (Qltb _ _) eqn:E.
  - apply Qltb_lt in E. split; [discriminate | intros; lra].
  - apply Qltb_ge in E. split; [intros _; exact E | reflexivity].
Qed.




End PredictorFacts.

(** ** The admission rules and the numeric priority *)

Module RulesFacts.
Import Predictor Rules Inputs.




Lemma throttling_temp cfg temp :
  PowerMonitor.is_thermal_throttling cfg temp = true ->
  exists t, temp = Some t /\ get_default (thermal_threshold_celsius cfg) 45 < t.
Proof.
  unfold PowerMonitor.is_thermal_throttling, PowerMonitor.get_thermal_status.
  destruct temp as [t |]; [| intros H; vm_compute in H; discriminate H].
  destruct (Qltb (get_default (thermal_threshold_celsius cfg) 45) t) eqn:E.
  - intros _. exists t. apply Qltb_lt in E. auto.
  - destruct (Qltb (get_default (thermal_threshold_celsius cfg) 45 - 5) t);
      intros H; cbn in H; discriminate H.
Qed.

Lemma critical_passes cfg prediction temp :
  _apply_scheduling_rules cfg prediction "critical" temp
  = (true, "Critical priority overrides constraints").
Proof.
  unfold _apply_scheduling_rules. cbn.
  rewrite !andb_false_r. reflexivity.
Qed.

(** C6, as amended. For every prediction and every thermal reading a
    Critical task passes with reason "Critical priority overrides
    constraints". Under thermal throttling a High task is denied for every
    prediction, with the reason of the first rule that fires: "Battery below
    threshold" when the prediction's battery percent is below 20, otherwise
    "Predicted drain too high" when the prediction is not safe to execute,
    and "Thermal throttling detected" when the battery percent is at least
    20 and the prediction is safe. *)
Theorem critical_overrides cfg prediction temp :
  _apply_scheduling_rules cfg prediction "critical" temp
    = (true, "Critical priority overrides constraints")
  /\ (PowerMonitor.is_thermal_throttling cfg temp = true ->
      fst (_apply_scheduling_rules cfg prediction "high" temp) = false
      /\ (current_battery_percent prediction < 20 ->
          _apply_scheduling_rules cfg prediction "high" temp
            = (false, "Battery below threshold"))
      /\ (20 <= current_battery_percent prediction ->
          safe_to_execute prediction = false ->
          _apply_scheduling_rules cfg prediction "high" temp
            = (false, "Predicted drain too high"))
      /\ (20 <= current_battery_percent prediction ->
          safe_to_execute prediction = true ->
          _apply_scheduling_rules cfg prediction "high" temp
            = (false, "Thermal throttling detected"))).
Proof.
  split.
  - apply critical_passes.
  - intros Hth. unfold _apply_scheduling_rules. rewrite Hth. cbn.
    rewrite !andb_true_r. repeat split.
    + destruct (Qltb _ 20); [reflexivity |].
      destruct (safe_to_execute prediction); reflexivity.
    + intros Hb. apply Qltb_lt in Hb. rewrite Hb. reflexivity.
    + intros Hb Hs. apply Qltb_ge in Hb. rewrite Hb, Hs. reflexivity.
    + intros Hb Hs. apply Qltb_ge in Hb. rewrite Hb, Hs. reflexivity.
Qed.

(** A thermal zone at 50 degrees: a safe prediction at 80 percent, and a
    prediction at 15 percent. *)
Lemma critical_overrides_witness :
  PowerMonitor.is_thermal_throttling empty_config hot = true
  /\ 20 <= current_battery_percent safe_prediction
  /\ safe_to_execute safe_prediction = true
  /\ _apply_scheduling_rules empty_config safe_prediction "critical" hot
       = (true, "Critical priority overrides constraints")
  /\ _apply_scheduling_rules empty_config safe_prediction "high" hot
       = (false, "Thermal throttling detected")
  /\ _apply_scheduling_rules empty_config low_battery_prediction "high" hot
       = (false, "Battery below threshold").
Proof.
  assert (Hth : PowerMonitor.is_thermal_throttling empty_config hot = true)
    by (vm_compute; reflexivity).
  assert (Hb : 20 <= current_battery_percent safe_prediction)
    by (vm_compute; discriminate).
  assert (Hs : safe_to_execute safe_prediction = true) by reflexivity.
  assert (Hl : current_battery_percent low_battery_prediction < 20)
    by (vm_compute; reflexivity).
  destruct (critical_overrides empty_config safe_prediction hot) as [Hc Hh].
  destruct (Hh Hth) as (_ & _ & _ & Hr).
  destruct (critical_overrides empty_config low_battery_prediction hot) as [_ Hh'].
  destruct (Hh' Hth) as (_ & Hlow & _).
  exact (conj Hth (conj Hb (conj Hs (conj Hc (conj (Hr Hb Hs) (Hlow Hl)))))).
Defined.

(** C6, as stated, fails. On a battery at 15 percent under throttling the
    Critical task passes with reason "Critical priority overrides
    constraints", which is not the string of the claim, and the High task is
    denied by the battery rule, so that its reason is not the thermal one in
    either spelling. *)
Lemma critical_reason_differs :
  ~ (_apply_scheduling_rules empty_config low_battery_prediction "critical" hot
       = (true, "critical priority overrides constraints"))
  /\ ~ (_apply_scheduling_rules empty_config low_battery_prediction "high" hot
         = (false, "thermal throttling detected"))
  /\ _apply_scheduling_rules empty_config low_battery_prediction "high" hot
       = (false, "Battery below threshold").
Proof. vm_compute. repeat split; intros H; discriminate H. Qed.

End RulesFacts.

(** ** The heap keeps its entries *)

Module HeapqFacts.
Import Heapq.
Section Heap.
Context {A : Type}.
Variable lt : A -> A -> result bool.

Lemma swap_Permutation (heap : list A) i j : swap heap i j ≡ₚ heap.
Proof.
  unfold swap.
  destruct (heap !! i) as [a |] eqn:Ei; [| reflexivity].
  destruct (heap !! j) as [b |] eqn:Ej; [| reflexivity].
  eapply Permutation_insert_swap; eassumption.
Qed.

Lemma swap_length (heap : list A) i j : length (swap heap i j) = length heap.
Proof. apply Permutation_length, swap_Permutation. Qed.

Lemma siftdown_Permutation fuel (heap : list A) startpos pos :
  fst (siftdown lt fuel heap startpos pos) ≡ₚ heap.
Proof.
  revert heap pos. induction fuel as [| fuel IH]; intros heap pos;
    cbn [siftdown]; [reflexivity |].
  destruct (pos <=? startpos)%nat; [reflexivity |].
  destruct (heap !! pos) as [newitem |]; [| reflexivity].
  destruct (heap !! ((pos - 1) / 2)%nat) as [parent |]; [| reflexivity].
  destruct (lt newitem parent) as [[|] | e]; try reflexivity.
  rewrite IH. apply swap_Permutation.
Qed.

(** The fuel of [siftdown] is enough: [pos] halves at each round. *)
Lemma siftdown_fuel fuel (heap : list A) startpos pos :
  (pos <= fuel)%nat ->
  siftdown lt fuel heap startpos pos = siftdown lt pos heap startpos pos.
Proof.
  revert fuel heap. induction pos as [pos IH] using lt_wf_ind. intros fuel heap Hle.
  destruct pos as [| pos'].
  - destruct fuel; reflexivity.
  - destruct fuel as [| fuel]; [lia |]. cbn [siftdown].
    destruct (S pos' <=? startpos)%nat; [reflexivity |].
    destruct (heap !! S pos') as [newitem |]; [| reflexivity].
    destruct (heap !! ((S pos' - 1) / 2)%nat) as [parent |]; [| reflexivity].
    destruct (lt newitem parent) as [[|] | e]; try reflexivity.
    assert (Hhalf : ((S pos' - 1) / 2 <= pos')%nat).
    { replace (S pos' - 1)%nat with pos' by lia.
      apply Nat.Div0.div_le_upper_bound. lia. }
    rewrite (IH ((S pos' - 1) / 2)%nat) by lia.
    symmetry. apply IH; lia.
Qed.

Lemma siftup_loop_Permutation fuel (heap : list A) pos :
  fst (fst (siftup_loop lt fuel heap pos)) ≡ₚ heap.
Proof.
  revert heap pos. induction fuel as [| fuel IH]; intros heap pos;
    cbn [siftup_loop]; [reflexivity |].
  destruct (length heap / 2 <=? pos)%nat; [reflexivity |].
  match goal with |- context [match ?p with Ok _ => _ | Raise _ => _ end] =>
    destruct p as [childpos | e] end; [| reflexivity].
  rewrite IH. apply swap_Permutation.
Qed.

(** The fuel of the first loop of [siftup] is enough: [pos] grows at each
    round and stays below half the length. *)
Lemma siftup_loop_fuel fuel1 fuel2 (heap : list A) pos :
  (length heap / 2 - pos <= fuel1)%nat -> (length heap / 2 - pos <= fuel2)%nat ->
  siftup_loop lt fuel1 heap pos = siftup_loop lt fuel2 heap pos.
Proof.
  revert fuel2 heap pos. induction fuel1 as [| fuel1 IH]; intros fuel2 heap pos H1 H2.
  - destruct fuel2 as [| fuel2]; [reflexivity |]. cbn [siftup_loop].
    destruct (length heap / 2 <=? pos)%nat eqn:E; [reflexivity |].
    apply Nat.leb_gt in E. lia.
  - destruct fuel2 as [| fuel2]; cbn [siftup_loop];
      destruct (length heap / 2 <=? pos)%nat eqn:E; try reflexivity.
    + apply Nat.leb_gt in E. lia.
    + apply Nat.leb_gt in E.
      match goal with |- context [match ?p with Ok _ => _ | Raise _ => _ end] =>
        assert (Hpick : match p with Ok c => (pos < c)%nat | Raise _ => True end);
        [| destruct p as [childpos | e]; [| reflexivity]] end.
      { destruct (2 * pos + 1 + 1 <? length heap)%nat; [| lia].
        destruct (heap !! (2 * pos + 1)%nat); [| lia].
        destruct (heap !! (2 * pos + 1 + 1)%nat); [| lia].
        destruct (lt _ _) as [[|] | e]; [lia | lia | exact I]. }
      apply IH; rewrite swap_length; lia.
Qed.

Lemma siftup_Permutation (heap : list A) pos :
  fst (siftup lt heap pos) ≡ₚ heap.
Proof.
  unfold siftup.
  pose proof (siftup_loop_Permutation (length heap) heap pos) as H.
  destruct (siftup_loop lt (length heap) heap pos) as [[heap' pos'] [e |]]; cbn in *.
  - exact H.
  - rewrite siftdown_Permutation. exact H.
Qed.

Lemma heappush_Permutation (heap : list A) item :
  fst (heappush lt heap item) ≡ₚ item :: heap.
Proof.
  unfold heappush. rewrite siftdown_Permutation.
  symmetry. apply Permutation_cons_append.
Qed.

(** What [heappop] does to the entries: nothing on an empty heap (where
    it raises [IndexError]); otherwise exactly one entry leaves the heap,
    and it is the entry returned unless a comparison raised. *)
Lemma heappop_Permutation (heap : list A) :
  match heappop lt heap with
  | (heap', Ok x) => heap ≡ₚ x :: heap'
  | (heap', Raise e) =>
      (heap = [] /\ heap' = [] /\ e = IndexError) \/ exists x, heap ≡ₚ x :: heap'
  end.
Proof.
  unfold heappop.
  destruct (heap !! (length heap - 1)%nat) as [lastelt |] eqn:Elast.
  - assert (Hsplit : heap = take (length heap - 1) heap ++ [lastelt]).
    { rewrite <- (take_drop (length heap - 1) heap) at 1. f_equal.
      apply lookup_lt_Some in Elast as Hlt.
      rewrite (drop_S _ _ _ Elast).
      rewrite drop_ge by lia. reflexivity. }
    set (front := take (length heap - 1) heap) in *.
    destruct (front !! 0%nat) as [returnitem |] eqn:Efront.
    + pose proof (siftup_Permutation (<[0%nat:=lastelt]> front) 0) as Hp.
      destruct front as [| x front']; [discriminate |].
      cbn in Efront. injection Efront as ->. cbn in Hp.
      assert (Hall : heap ≡ₚ returnitem :: fst (siftup lt (lastelt :: front') 0)).
      { rewrite Hp, Hsplit. cbn. constructor.
        symmetry. apply Permutation_cons_append. }
      cbn [insert list_insert].
      destruct (siftup lt (lastelt :: front') 0) as [heap' [e |]]; cbn in Hall.
      * right. eauto.
      * exact Hall.
    + destruct front; [| discriminate]. rewrite Hsplit. reflexivity.
  - left. destruct heap as [| x heap]; [auto |].
    apply lookup_ge_None in Elast. cbn in Elast. lia.
Qed.

End Heap.
End HeapqFacts.

(** ** The scheduler: steps and runs *)

Module SchedulerFacts.
Import Predictor Rules Scheduler Inputs.

Lemma put_Permutation (q : list entry) e :
  fst (PriorityQueue.put entry_lt q e) ≡ₚ e :: q.
Proof. apply HeapqFacts.heappush_Permutation. Qed.

Lemma get_Permutation (q : list entry) :
  match PriorityQueue.get entry_lt q with
  | PriorityQueue.Blocks => q = []
  | PriorityQueue.GetRaised _ q' => exists x, q ≡ₚ x :: q'
  | PriorityQueue.Got x q' => q ≡ₚ x :: q'
  end.
Proof.
  unfold PriorityQueue.get.
  destruct q as [| x0 q0]; [reflexivity |]. cbn [PriorityQueue.empty].
  pose proof (HeapqFacts.heappop_Permutation entry_lt (x0 :: q0)) as H.
  destruct (Heapq.heappop entry_lt (x0 :: q0)) as [q' [x | e]].
  - exact H.
  - destruct H as [[H _] | H]; [discriminate | exact H].
Qed.

Lemma live_set_queue s q : live (set_queue s q) = snd <$> (held s ++ q).
Proof. reflexivity. Qed.

Lemma created_app tr1 tr2 : created (tr1 ++ tr2) = created tr1 ++ created tr2.
Proof. apply omap_app. Qed.

Lemma invoked_app tr1 tr2 : invoked (tr1 ++ tr2) = invoked tr1 ++ invoked tr2.
Proof. apply omap_app. Qed.

Lemma schedule_moves cfg s f p d r :
  moves s (snd (schedule cfg s f p d r)) (fst (fst (schedule cfg s f p d r))).
Proof.
  unfold schedule.
  destruct (_apply_scheduling_rules _ _ _ _) as [should reason].
  set (t := {| obj := next_obj s; id := _ |}).
  set (pv := _calculate_priority _ _).
  cbn [task_queue].
  pose proof (put_Permutation (task_queue s) (pv, t)) as Hp.
  destruct (PriorityQueue.put entry_lt (task_queue s) (pv, t)) as [q [e |]];
    cbn [fst snd] in *.
  all: apply (moves_new _ _ _ t); try reflexivity.
  all: unfold live, held; cbn [pc set_queue task_queue].
  all: rewrite !fmap_app, Hp, fmap_cons; cbn [snd].
  all: symmetry; apply Permutation_middle.
Qed.

Lemma execute_task_events h t r :
  created (fst (snd (_execute_task h t r))) = []
  /\ invoked (fst (snd (_execute_task h t r))) = [obj t].
Proof.
  unfold _execute_task. destruct (er_outcome r); split; reflexivity.
Qed.

Lemma loop_step_moves s r :
  moves s (snd (loop_step s r)) (fst (loop_step s r)).
Proof.
  unfold loop_step.
  destruct (pc s) as [| | e | | x] eqn:Epc;
    try (apply moves_keep; reflexivity).
  - (* at the head of the loop *)
    destruct (is_running s).
    2:{ cbn. apply moves_keep; try reflexivity.
        unfold live, held. cbn. rewrite Epc. reflexivity. }
    cbn [negb].
    destruct (PriorityQueue.empty (task_queue s)).
    { apply moves_keep; reflexivity. }
    pose proof (get_Permutation (task_queue s)) as Hg.
    destruct (PriorityQueue.get entry_lt (task_queue s)) as [| x q | [priority t] q].
    + apply moves_keep; reflexivity.
    + destruct Hg as [[p0 t0] Hg]. cbn [fst snd].
      apply (moves_lose _ _ _ t0); try reflexivity.
      unfold live, held. cbn. rewrite Epc. cbn. rewrite Hg. reflexivity.
    + destruct (should_execute t) eqn:Ex.
      * destruct (execute_task_events (history s) t r) as [Hc Hi].
        destruct (_execute_task (history s) t r) as [h [evs [e |]]]; cbn [fst snd] in *.
        -- apply (moves_exec _ _ _ t); try assumption; try reflexivity.
           unfold live, held. cbn. rewrite Epc. cbn. rewrite Hg. reflexivity.
        -- apply (moves_exec _ _ _ t); try assumption; try reflexivity.
           ++ unfold live, held. cbn. rewrite Epc. cbn. rewrite Hg. reflexivity.
           ++ rewrite created_app, Hc. reflexivity.
           ++ rewrite invoked_app, Hi. reflexivity.
      * destruct (_should_retry t); cbn [fst snd].
        -- apply moves_keep; try reflexivity.
           unfold live, held. cbn. rewrite Epc. cbn. rewrite Hg. reflexivity.
        -- apply (moves_lose _ _ _ t); try reflexivity.
           unfold live, held. cbn. rewrite Epc. cbn. rewrite Hg. reflexivity.
  - (* about to put the deferred entry back *)
    pose proof (put_Permutation (task_queue s) e) as Hp.
    destruct (PriorityQueue.put entry_lt (task_queue s) e) as [q [x |]];
      cbn [fst snd] in *.
    all: apply moves_keep; try reflexivity.
    all: unfold live, held; cbn; rewrite Epc; cbn; rewrite Hp; reflexivity.
Qed.

Lemma start_moves s : moves s [] (start s).
Proof.
  unfold start. destruct (is_running s); [apply moves_keep; reflexivity |].
  destruct (pc s) as [| | [p t] | | x] eqn:Epc.
  3:{ apply (moves_lose _ _ _ t); try reflexivity.
      unfold live, held. cbn. rewrite Epc. reflexivity. }
  all: apply moves_keep; try reflexivity.
  all: unfold live, held; cbn; rewrite Epc; reflexivity.
Qed.

Lemma stop_moves s : moves s [] (stop s).
Proof.
  apply moves_keep; try reflexivity.
  unfold live, held, stop. cbn. destruct (pc s); reflexivity.
Qed.

Lemma apply_moves cfg s a :
  moves s (snd (apply cfg s a)) (fst (apply cfg s a)).
Proof.
  destruct a as [| | f p d r | r]; cbn [apply].
  - apply start_moves.
  - destruct (pc s); try apply stop_moves. apply moves_keep; reflexivity.
  - pose proof (schedule_moves cfg s f p d r) as H.
    destruct (schedule cfg s f p d r) as [[s' res] evs]. exact H.
  - apply loop_step_moves.
Qed.

Lemma Inv_init : Inv init [].
Proof.
  split; cbn; try constructor.
  - intros t H. inversion H.
  - intros t H. inversion H.
  - intros o H. inversion H.
Qed.

Lemma invoked_bound s tr o : Inv s tr -> o ∈ invoked tr -> (o < next_obj s)%nat.
Proof.
  intros HI Ho. destruct (inv_invoked_allowed _ _ HI o Ho) as (t & Ht & <- & _).
  apply (inv_created_bound _ _ HI), Ht.
Qed.

Lemma live_bound s tr t : Inv s tr -> t ∈ live s -> (obj t < next_obj s)%nat.
Proof.
  intros HI Ht. apply (inv_created_bound _ _ HI), (inv_live_created _ _ HI), Ht.
Qed.

Lemma Inv_step s tr evs s' : Inv s tr -> moves s evs s' -> Inv s' (tr ++ evs).
Proof.
  intros HI Hm. pose proof HI as [Hnd Hcnd Hcb Hlc Hia].
  destruct Hm as [Hl Hc Hi Hn | t Hl Hc Hi Hn | t Hl Hx Hc Hi Hn | t Hl Ho Hn Hc Hi];
    split; rewrite ?created_app, ?invoked_app, ?Hc, ?Hi, ?app_nil_r, ?Hn.
  (* the live tasks are kept *)
  - rewrite Hl. exact Hnd.
  - exact Hcnd.
  - exact Hcb.
  - intros t Ht. apply Hlc. rewrite <- Hl. exact Ht.
  - exact Hia.
  (* a live task leaves *)
  - rewrite Hl in Hnd. cbn in Hnd. apply NoDup_cons in Hnd. apply Hnd.
  - exact Hcnd.
  - exact Hcb.
  - intros t' Ht'. apply Hlc. rewrite Hl. right. exact Ht'.
  - exact Hia.
  (* a live task is executed *)
  - rewrite Hl in Hnd. cbn in Hnd.
    rewrite app_assoc, <- Permutation_cons_append. exact Hnd.
  - exact Hcnd.
  - exact Hcb.
  - intros t' Ht'. apply Hlc. rewrite Hl. right. exact Ht'.
  - intros o [Ho | Ho]%elem_of_app.
    + apply Hia, Ho.
    + apply list_elem_of_singleton in Ho as ->. exists t. split; [| auto].
      apply Hlc. rewrite Hl. left.
  (* a new task arrives *)
  - rewrite Hl. cbn. apply NoDup_cons. split; [| exact Hnd].
    rewrite Ho. intros [H | H]%elem_of_app.
    + apply list_elem_of_fmap in H as (t' & Heq & Ht').
      pose proof (live_bound _ _ _ HI Ht'). lia.
    + pose proof (invoked_bound _ _ _ HI H). lia.
  - rewrite fmap_app. cbn. rewrite <- Permutation_cons_append.
    apply NoDup_cons. split; [| exact Hcnd].
    rewrite Ho. intros H. apply list_elem_of_fmap in H as (t' & Heq & Ht').
    pose proof (Hcb _ Ht'). lia.
  - intros t' [Ht' | Ht']%elem_of_app.
    + pose proof (Hcb _ Ht'). lia.
    + apply list_elem_of_singleton in Ht' as ->. lia.
  - intros t' Ht'. rewrite Hl in Ht'. apply elem_of_app.
    apply elem_of_cons in Ht' as [-> | Ht'].
    + right. left.
    + left. apply Hlc, Ht'.
  - intros o H. destruct (Hia o H) as (t' & Ht' & Hto).
    exists t'. split; [| exact Hto]. apply elem_of_app. left. exact Ht'.
Qed.

Lemma Inv_run cfg acts : forall s tr,
  Inv s tr -> Inv (fst (run cfg s acts)) (tr ++ snd (run cfg s acts)).
Proof.
  induction acts as [| a acts IH]; intros s tr HI; cbn [run].
  - cbn. rewrite app_nil_r. exact HI.
  - pose proof (apply_moves cfg s a) as Hm.
    destruct (apply cfg s a) as [s1 evs1]. cbn [fst snd] in Hm.
    specialize (IH s1 (tr ++ evs1) (Inv_step _ _ _ _ HI Hm)).
    destruct (run cfg s1 acts) as [s2 evs2]. cbn [fst snd] in *.
    rewrite app_assoc. exact IH.
Qed.

Lemma Inv_run_init cfg acts :
  Inv (fst (run cfg init acts)) (snd (run cfg init acts)).
Proof. apply (Inv_run cfg acts init []), Inv_init. Qed.

Lemma created_elem t tr : Created t ∈ tr <-> t ∈ created tr.
Proof.
  unfold created. rewrite list_elem_of_omap. split.
  - intros H. exists (Created t). auto.
  - intros (e & He & Hc). destruct e; try discriminate.
    cbn in Hc. injection Hc as ->. exact He.
Qed.

Lemma invoked_elem o tr : (exists f, Invoke o f ∈ tr) <-> o ∈ invoked tr.
Proof.
  unfold invoked. rewrite list_elem_of_omap. split.
  - intros [f H]. exists (Invoke o f). auto.
  - intros (e & He & Hc). destruct e; try discriminate.
    cbn in Hc. injection Hc as ->. eauto.
Qed.

Lemma NoDup_fmap_eq {A B} (f : A -> B) (l : list A) x y :
  NoDup (f <$> l) -> x ∈ l -> y ∈ l -> f x = f y -> x = y.
Proof.
  induction l as [| a l IH]; intros Hnd Hx Hy Hf.
  - inversion Hx.
  - cbn in Hnd. apply NoDup_cons in Hnd as [Hna Hnd].
    apply elem_of_cons in Hx as [-> | Hx]; apply elem_of_cons in Hy as [-> | Hy].
    + reflexivity.
    + exfalso. apply Hna. rewrite Hf. apply list_elem_of_fmap_2, Hy.
    + exfalso. apply Hna. rewrite <- Hf. apply list_elem_of_fmap_2, Hx.
    + apply IH; assumption.
Qed.

(** C8. In every run of the scheduler from its initial state, whatever the
    calls of [start], [stop] and [schedule], the steps of the loop thread
    and their interleaving, the function of a task object is called at most
    once. *)
Theorem invoked_at_most_once cfg acts o :
  (invocations o (snd (run cfg init acts)) <= 1)%nat.
Proof.
  unfold invocations. apply NoDup_count_occ.
  pose proof (inv_nodup _ _ (Inv_run_init cfg acts)) as H.
  apply NoDup_app in H as (_ & _ & H). apply NoDup_ListNoDup, H.
Qed.

Lemma schedule_created cfg s f p d r t :
  t ∈ created (snd (schedule cfg s f p d r)) ->
  let prediction :=
    predict_drain cfg (get_default d default_description) (sr_tm_hour r) (sr_battery r) in
  obj t = next_obj s
  /\ func t = f
  /\ Scheduler.prediction t = prediction
  /\ (should_execute t, reason t) = _apply_scheduling_rules cfg prediction p (sr_temp r)
  /\ priority t = _calculate_priority p prediction.
Proof.
  unfold schedule.
  destruct (_apply_scheduling_rules _ _ _ _) as [should why].
  destruct (PriorityQueue.put _ _ _) as [q [e |]]; cbn.
  all: intros Ht; apply list_elem_of_singleton in Ht as ->; cbn; auto.
Qed.

Lemma get_Got_nonempty (q q' : list entry) x :
  PriorityQueue.get entry_lt q = PriorityQueue.Got x q' -> PriorityQueue.empty q = false.
Proof. destruct q; [discriminate | reflexivity]. Qed.

(** What the loop does with a dequeued entry depends on the flag stored in
    the task, and on nothing that is read at that time. *)
Lemma loop_step_decision s r p t q :
  pc s = AtHead -> is_running s = true ->
  PriorityQueue.get entry_lt (task_queue s) = PriorityQueue.Got (p, t) q ->
  invoked (snd (loop_step s r)) = if should_execute t then [obj t] else [].
Proof.
  intros Hpc Hrun Hget. unfold loop_step.
  rewrite Hpc, Hrun, (get_Got_nonempty _ _ _ Hget), Hget. cbn [negb].
  destruct (should_execute t).
  - destruct (execute_task_events (history s) t r) as [_ Hi].
    destruct (_execute_task (history s) t r) as [h [evs [e |]]]; cbn [fst snd] in *.
    + exact Hi.
    + rewrite invoked_app, Hi. reflexivity.
  - destruct (_should_retry t); reflexivity.
Qed.

(** C10. The admission verdict is computed by [schedule], from the prediction
    and the rules at that time, and stored in the task; when the loop
    dequeues a task it calls the function exactly when the stored flag is
    set, whatever is read at that time; and in every run from the initial
    state a task that was denied when it was submitted is never executed,
    however often it is deferred and put back. *)
Theorem admission_decided_once cfg :
  (forall s f p d r t,
      t ∈ created (snd (schedule cfg s f p d r)) ->
      (should_execute t, reason t)
      = _apply_scheduling_rules cfg
          (predict_drain cfg (get_default d default_description) (sr_tm_hour r) (sr_battery r))
          p (sr_temp r))
  /\ (forall s r p t q,
        pc s = AtHead -> is_running s = true ->
        PriorityQueue.get entry_lt (task_queue s) = PriorityQueue.Got (p, t) q ->
        invoked (snd (loop_step s r)) = if should_execute t then [obj t] else [])
  /\ (forall acts t f,
        Created t ∈ snd (run cfg init acts) ->
        should_execute t = false ->
        Invoke (obj t) f ∉ snd (run cfg init acts)).
Proof.
  split; [| split].
  - intros s f p d r t Ht. apply (schedule_created cfg s f p d r t Ht).
  - apply loop_step_decision.
  - intros acts t f Hc Hd Hi.
    pose proof (Inv_run_init cfg acts) as HI.
    apply created_elem in Hc.
    assert (Ho : obj t ∈ invoked (snd (run cfg init acts)))
      by (apply invoked_elem; eauto).
    destruct (inv_invoked_allowed _ _ HI _ Ho) as (t' & Ht' & Heq & Hx).
    assert (t' = t)
      by (eapply NoDup_fmap_eq; eauto using inv_created_nodup).
    subst t'. congruence.
Qed.

(** The run [high_denied]: the task is denied at 15 percent, deferred and
    put back twice, and not executed when the battery has recovered. *)
Lemma admission_decided_once_witness :
  Created denied_task ∈ snd (run empty_config init high_denied)
  /\ should_execute denied_task = false
  /\ Invoke 0 7%nat ∉ snd (run empty_config init high_denied).
Proof.
  assert (H1 : Created denied_task ∈ snd (run empty_config init high_denied))
    by (vm_compute; apply list_elem_of_here).
  split; [exact H1 |]. split; [reflexivity |].
  exact (proj2 (proj2 (admission_decided_once empty_config))
           high_denied denied_task 7%nat H1 eq_refl).
Defined.

(** C5, as amended. A dequeued task whose flag is not set is put back
    exactly when the priority stored in the task at submission is below 50.
    Among denied tasks these are the High-class ones and, of the remaining
    classes other than Low, those whose prediction is safe to execute (45);
    a Normal-class task with an unsafe prediction has the value 50 and is
    dropped like a Low-class one. A task that is retried waits 60 seconds in
    the loop thread and is then put back unchanged under its queue key plus
    1; the priority stored in the task, which the test reads, stays as it
    was. *)
Theorem deferred_retry_rule :
  (forall s r p t q,
      pc s = AtHead -> is_running s = true ->
      PriorityQueue.get entry_lt (task_queue s) = PriorityQueue.Got (p, t) q ->
      should_execute t = false ->
      loop_step s r
      = if (priority t <? 50)%Z
        then (set_pc (set_queue s q) (Requeue ((p + 1)%Z, t)),
              [LogDeferred (id t) (reason t); Sleep 60])
        else (set_queue s q, [LogDeferred (id t) (reason t); Sleep 1]))
  /\ (forall s r e,
        pc s = Requeue e ->
        task_queue (fst (loop_step s r)) ≡ₚ e :: task_queue s
        /\ held (fst (loop_step s r)) = [])
  /\ (forall cfg prediction priority_str temp,
        fst (_apply_scheduling_rules cfg prediction priority_str temp) = false ->
        ((_calculate_priority priority_str prediction < 50)%Z
         <-> priority_str = "high"
             \/ (priority_str <> "low" /\ safe_to_execute prediction = true))).
Proof.
  split; [| split].
  - intros s r p t q Hpc Hrun Hget Hx. unfold loop_step.
    rewrite Hpc, Hrun, (get_Got_nonempty _ _ _ Hget), Hget, Hx. reflexivity.
  - intros s r e Hpc. unfold loop_step. rewrite Hpc.
    pose proof (put_Permutation (task_queue s) e) as Hp.
    destruct (PriorityQueue.put entry_lt (task_queue s) e) as [q [x |]];
      cbn [fst snd] in *; auto.
  - intros cfg prediction priority_str temp Hden.
    assert (Hnc : priority_str <> "critical").
    { intros ->. rewrite (RulesFacts.critical_passes cfg prediction temp) in Hden.
      discriminate. }
    unfold _calculate_priority, priority_map.
    apply String.eqb_neq in Hnc. rewrite Hnc.
    destruct (String.eqb priority_str "high") eqn:Eh.
    { apply String.eqb_eq in Eh. destruct (safe_to_execute prediction); split; auto; lia. }
    apply String.eqb_neq in Eh.
    destruct (String.eqb priority_str "normal") eqn:En.
    { apply String.eqb_eq in En. subst priority_str.
      destruct (safe_to_execute prediction); split; try lia.
      - intros _. right. split; [discriminate | reflexivity].
      - intros [H | [_ H]]; [discriminate H | discriminate H]. }
    destruct (String.eqb priority_str "low") eqn:El.
    { apply String.eqb_eq in El. subst priority_str.
      destruct (safe_to_execute prediction); split; try lia.
      - intros [H | [H _]]; [discriminate H | contradiction].
      - intros [H | [H _]]; [discriminate H | contradiction]. }
    apply String.eqb_neq in El.
    destruct (safe_to_execute prediction); split; try lia.
    + intros _. right. auto.
    + intros [H | [_ H]]; [contradiction | discriminate H].
Qed.

(** The first loop step of [high_denied]: the task, of stored priority 10,
    is held for a retry under the key 11. *)
Lemma deferred_retry_rule_witness :
  (priority denied_task <? 50)%Z = true
  /\ pc (fst (run empty_config init (firstn 3 high_denied)))
     = Requeue (11%Z, denied_task).
Proof.
  split; [reflexivity |].
  set (s := fst (run empty_config init (firstn 2 high_denied))).
  change (fst (run empty_config init (firstn 3 high_denied)))
    with (fst (loop_step s (reads_exec 15 15 Returns))).
  rewrite (proj1 deferred_retry_rule s (reads_exec 15 15 Returns) 10%Z denied_task []);
    vm_compute; reflexivity.
Defined.

(** C5, as stated, fails: a Normal-class task on a battery at 20.5 percent is
    denied (the predicted drain would take it below 20), its priority value
    is 50, and the loop drops it: it is neither queued nor held afterwards. *)
Lemma normal_tier_denied_dropped :
  exists t,
    created (snd (run empty_config init normal_denied)) = [t]
    /\ should_execute t = false
    /\ priority t = 50%Z
    /\ live (fst (run empty_config init normal_denied)) = [].
Proof. eexists. vm_compute. repeat split. Qed.

(** The id is the clock reading in whole milliseconds: two calls get
    different ids exactly when their readings fall in different
    milliseconds. *)
Lemma task_id_eq (t1 t2 : Q) :
  "task_" +:+ pretty (py_int (t1 * 1000)) = "task_" +:+ pretty (py_int (t2 * 1000))
  <-> py_int (t1 * 1000) = py_int (t2 * 1000).
Proof.
  split; [| intros ->; reflexivity].
  intros H. apply (inj (String.app "task_")) in H. apply (inj pretty) in H. exact H.
Qed.

(** C1 at the failing input: two calls of [schedule] whose clock readings,
    1700000000.25 and a quarter of a millisecond later, fall in the same
    millisecond both return "task_1700000000250", and the queue then holds
    two entries with that id. *)
Theorem same_millisecond_same_id :
  let '(s1, id1, _) := schedule empty_config init 1%nat "high" None (reads_at t_a) in
  let '(s2, id2, _) := schedule empty_config s1 2%nat "normal" None (reads_at t_b) in
  t_a < t_b
  /\ id1 = Ok "task_1700000000250"
  /\ id2 = Ok "task_1700000000250"
  /\ (fun e : entry => id (snd e)) <$> task_queue s2
     = ["task_1700000000250"; "task_1700000000250"].
Proof. vm_compute. repeat split. Qed.

(** Two entries with the same key whose dicts differ cannot be ordered. *)
Lemma put_tie_raises (e1 e2 : entry) :
  fst e2 = fst e1 -> task_eqb (snd e2) (snd e1) = false ->
  PriorityQueue.put entry_lt [e1] e2 = ([e1; e2], Some TypeError).
Proof.
  intros Hk Hne. unfold PriorityQueue.put, Heapq.heappush. cbn.
  unfold entry_lt. rewrite Hk, Z.eqb_refl, Hne. reflexivity.
Qed.

(** C2 at the failing input: two calls of [schedule] with the default class
    "normal", half a second apart, on the same battery state. Both tasks get
    the priority value 45; the second [put] compares the two entries, the
    comparison falls through to the task dicts, and [schedule] ends with
    [TypeError] instead of returning an id. *)
Theorem equal_priority_raises :
  let '(s1, id1, _) := schedule empty_config init 1%nat "normal" None (reads_at t_a) in
  let '(s2, id2, _) := schedule empty_config s1 2%nat "normal" None (reads_at t_c) in
  fst <$> task_queue s1 = [45%Z]
  /\ id1 = Ok "task_1700000000250"
  /\ id2 = Raise TypeError.
Proof. vm_compute. repeat split. Qed.

(** A task whose function raises is completed like any other: the failure
    is logged, the drain is recorded, and the thread is back at the head of
    the loop with the rest of the queue. *)
Lemma raising_task_completed s r p t q error :
  pc s = AtHead -> is_running s = true ->
  PriorityQueue.get entry_lt (task_queue s) = PriorityQueue.Got (p, t) q ->
  should_execute t = true ->
  er_outcome r = RaisesException error ->
  let before := PowerMonitor.get_battery_percent (er_battery_before r) in
  let after := PowerMonitor.get_battery_percent (er_battery_after r) in
  let actual_drain :=
    if truthy_float before && truthy_float after
    then get_default before 0 - get_default after 0 else 0 in
  loop_step s r
  = (set_history (set_queue s q)
       (history s ++ [{| dr_task_id := id t; dr_actual_drain := actual_drain;
                         dr_timestamp := er_time_recorded r |}]),
     [LogExecuting (id t); Invoke (obj t) (func t); LogFailed (id t) error;
      LogCompleted (id t) (er_end_time r - er_start_time r) actual_drain; Sleep 1])
  /\ pc (fst (loop_step s r)) = AtHead.
Proof.
  intros Hpc Hrun Hget Hx Hout. cbv zeta. unfold loop_step.
  rewrite Hpc, Hrun, (get_Got_nonempty _ _ _ Hget), Hget, Hx.
  unfold _execute_task, record_actual_drain. rewrite Hout. cbn. rewrite Hpc.
  split; reflexivity.
Qed.

(** The recorded drain is the difference of the two readings when both are
    present and neither is zero, for a call that returns or raises an
    instance of [Exception]. *)
Lemma execute_task_drain h t r before after :
  (forall e, er_outcome r <> RaisesBaseException e) ->
  PowerMonitor.get_battery_percent (er_battery_before r) = Some before ->
  PowerMonitor.get_battery_percent (er_battery_after r) = Some after ->
  ~ before == 0 -> ~ after == 0 ->
  dr_actual_drain <$> fst (_execute_task h t r)
  = (dr_actual_drain <$> h) ++ [before - after].
Proof.
  intros Hout Hb Ha Hb0 Ha0. unfold _execute_task, record_actual_drain.
  destruct (er_outcome r) as [| e | e]; [| | destruct (Hout e); reflexivity];
    cbn [fst]; rewrite Hb, Ha, fmap_app; cbn;
    (destruct (Qeq_bool before 0) eqn:E1; [apply Qeq_bool_iff in E1; contradiction |]);
    (destruct (Qeq_bool after 0) eqn:E2; [apply Qeq_bool_iff in E2; contradiction |]);
    reflexivity.
Qed.

(** C9 at the failing input: the function raises while the battery goes
    from 50 percent to 0 percent. Both readings are available, their
    difference is 50, and the drain that is recorded is 0: the test
    [battery_before and battery_after] takes the reading 0.0 for a missing
    one. *)
Theorem zero_reading_recorded_as_no_drain :
  let r := reads_exec 50 0 (RaisesException "boom") in
  PowerMonitor.get_battery_percent (er_battery_before r) = Some 50
  /\ PowerMonitor.get_battery_percent (er_battery_after r) = Some 0
  /\ dr_actual_drain <$> fst (_execute_task [] accepted_task r) = [0].
Proof. vm_compute. repeat split. Qed.

(** The runs used above do call functions: in [raising_then_next] each of
    the two tasks is executed once, the second after the first has raised. *)
Example raising_then_next_invocations :
  invoked (snd (run empty_config init raising_then_next)) = [0; 1]%nat
  /\ invocations 0 (snd (run empty_config init raising_then_next)) = 1%nat
  /\ pc (fst (run empty_config init raising_then_next)) = AtHead.
Proof. vm_compute. repeat split. Qed.

(** With distinct priority values the loop executes in the order of the
    values: Critical (-5), High (5), Low (95). *)
Example three_classes_order :
  invoked (snd (run empty_config init three_classes)) = [1; 2; 0]%nat
  /\ (fun t => (obj t, priority t)) <$> created (snd (run empty_config init three_classes))
     = [(0%nat, 95%Z); (1%nat, (-5)%Z); (2%nat, 5%Z)].
Proof. vm_compute. repeat split. Qed.

End SchedulerFacts.

(** * Further properties of the code *)

(** ** The predictor, beyond the drain bounds *)

Module PredictorMore.
Import Predictor Rules Inputs PredictorFacts.

(** X1. The hour of the day is extracted as a feature and never used: the
    prediction is the same at every hour. *)
Theorem predict_drain_ignores_hour cfg td h1 h2 battery :
  predict_drain cfg td h1 battery = predict_drain cfg td h2 battery.
Proof. reflexivity. Qed.

Lemma drain_le_10 cfg td h battery :
  estimated_drain_percent (predict_drain cfg td h battery) <= 10.
Proof. apply (run_prediction_bounds td h). Qed.

Lemma headroom_safe cfg td h battery :
  get_default (battery_threshold_percent cfg) 20 + 10
    <= percent (_get_current_battery_state battery) ->
  safe_to_execute (predict_drain cfg td h battery) = true.
Proof.
  intros Hroom. unfold predict_drain. cbn [safe_to_execute].
  pose proof (drain_le_10 cfg td h battery) as Hd.
  unfold predict_drain in Hd. cbn [estimated_drain_percent] in Hd.
  destruct (truthy_bool (plugged_in (_get_current_battery_state battery))) eqn:Ep.
  - apply safe_plugged, Ep.
  - apply safe_unplugged; [exact Ep | lra].
Qed.

(** X2. A battery that is at least 10 points above the configured threshold
    makes every prediction safe, whatever the description: the drain is
    capped at 10. Without a battery sensor the fallback state stands at 80
    percent. *)
Theorem safe_with_headroom cfg td h battery :
  get_default (battery_threshold_percent cfg) 20 + 10
    <= percent (_get_current_battery_state battery) ->
  safe_to_execute (predict_drain cfg td h battery) = true.
Proof. apply headroom_safe. Qed.

(** No sensor, the default threshold, a description with a huge workload. *)
Lemma safe_with_headroom_witness :
  safe_to_execute
    (predict_drain empty_config
       {| compute_ops := Some 1000000000000; memory_mb := Some 100;
          duration_seconds := Some 3600 |} 3 None) = true.
Proof.
  apply safe_with_headroom. vm_compute. discriminate.
Defined.

(** X3. The rule "Predicted drain too high" can only fire on a battery that
    is not plugged in and stands in the band from 20 percent to less than
    10 points above the configured threshold. *)
Theorem drain_rule_band cfg td h battery priority temp :
  snd (_apply_scheduling_rules cfg (predict_drain cfg td h battery) priority temp)
    = "Predicted drain too high" ->
  truthy_bool (plugged_in (_get_current_battery_state battery)) = false
  /\ 20 <= percent (_get_current_battery_state battery)
  /\ percent (_get_current_battery_state battery)
     < get_default (battery_threshold_percent cfg) 20 + 10.
Proof.
  unfold _apply_scheduling_rules.
  set (p := predict_drain cfg td h battery).
  assert (Hpct : current_battery_percent p = percent (_get_current_battery_state battery))
    by reflexivity.
  destruct (Qltb (current_battery_percent p) 20) eqn:Eb,
           (String.eqb priority "critical"),
           (safe_to_execute p) eqn:Es,
           (PowerMonitor.is_thermal_throttling cfg temp);
    cbn; intros H; try discriminate H.
  all: apply Qltb_ge in Eb; rewrite Hpct in Eb.
  all: destruct (truthy_bool (plugged_in (_get_current_battery_state battery))) eqn:Ep;
    [ unfold p, predict_drain in Es; cbn [safe_to_execute] in Es;
      rewrite safe_plugged in Es by exact Ep; discriminate |].
  all: split; [reflexivity |]; split; [exact Eb |].
  all: destruct (Qlt_le_dec (percent (_get_current_battery_state battery))
                   (get_default (battery_threshold_percent cfg) 20 + 10)) as [Hlt | Hge];
    [exact Hlt |].
  all: pose proof (headroom_safe cfg td h battery Hge) as Hs;
    fold p in Hs; congruence.
Qed.

(** The default description on a battery at 20.5 percent, not plugged in. *)
Lemma drain_rule_band_witness :
  snd (_apply_scheduling_rules empty_config
         (predict_drain empty_config Scheduler.default_description 10
            (Some (cold_battery (41 # 2)))) "normal" None)
    = "Predicted drain too high"
  /\ percent (_get_current_battery_state (Some (cold_battery (41 # 2)))) < 20 + 10.
Proof.
  assert (H : snd (_apply_scheduling_rules empty_config
                     (predict_drain empty_config Scheduler.default_description 10
                        (Some (cold_battery (41 # 2)))) "normal" None)
              = "Predicted drain too high") by (vm_compute; reflexivity).
  split; [exact H |].
  exact (proj2 (proj2 (drain_rule_band empty_config Scheduler.default_description 10
                         (Some (cold_battery (41 # 2))) "normal" None H))).
Defined.



End PredictorMore.

(** ** The accuracy report *)

Module CalibrationFacts.
Import Predictor Calibration MoreInputs.

Lemma np_sum_nonneg xs : Forall (fun x => 0 <= x) xs -> 0 <= np_sum xs.
Proof.
  induction 1 as [| x xs Hx _ IH]; [cbn; lra |].
  change (np_sum (x :: xs)) with (x + np_sum xs). lra.
Qed.

Lemma py_max_0 x : 0 <= py_max 0 x /\ (x <= 100 -> py_max 0 x <= 100)
                   /\ (py_max 0 x == 100 <-> x == 100).
Proof.
  unfold py_max. destruct (Qltb 0 x) eqn:E.
  - apply Qltb_lt in E. repeat split; intros; lra.
  - apply Qltb_ge in E. repeat split; intros; lra.
Qed.

(** The absolute errors of a history: the recorded drains, unsigned. *)
Lemma errors_nonneg (history : list drain_record) :
  Forall (fun x => 0 <= x) ((fun record => Qabs (0 - dr_actual_drain record)) <$> history).
Proof.
  induction history as [| r history IH]; [constructor |].
  rewrite fmap_cons. constructor; [apply Qabs_nonneg | exact IH].
Qed.

Lemma mean_facts xs :
  xs <> [] -> Forall (fun x => 0 <= x) xs ->
  0 <= np_mean xs /\ (np_mean xs == 0 <-> np_sum xs == 0).
Proof.
  intros Hne Hxs. unfold np_mean.
  pose proof (np_sum_nonneg xs Hxs) as Hs.
  assert (Hn : 0 < inject_Z (Z.of_nat (length xs))).
  { change 0 with (inject_Z 0). rewrite <- Zlt_Qlt. destruct xs; [contradiction | cbn; lia]. }
  set (n := inject_Z _) in *. set (t := np_sum xs) in *.
  split.
  - apply Qle_shift_div_l; [exact Hn | lra].
  - split; intros H.
    + assert (E : t == t / n * n) by (field; lra). rewrite E, H. ring.
    + rewrite H. field. lra.
Qed.

(** X5. The reported accuracy lies between 0 and 100, and it is 0 for a
    history of fewer than two records. *)
Theorem accuracy_range history :
  0 <= get_prediction_accuracy history <= 100
  /\ get_prediction_accuracy [] = 0
  /\ (forall r, get_prediction_accuracy [r] = 0).
Proof.
  split; [| split; reflexivity].
  unfold get_prediction_accuracy.
  destruct (length history <? 2)%nat eqn:E; [lra |].
  set (errors := _ <$> history).
  assert (Hne : errors <> []).
  { destruct history; [discriminate E | discriminate]. }
  destruct (mean_facts errors Hne (errors_nonneg history)) as [Hm _].
  destruct (py_max_0 (100 - np_mean errors * 10)) as (H0 & H100 & _).
  split; [exact H0 | apply H100; lra].
Qed.





End CalibrationFacts.

(** ** Thermal status, admission rules and priorities *)

Module RulesMore.
Import Predictor Rules Inputs MoreInputs PredictorFacts.

(** X7. The power monitor's throttling test is the device manager's test at
    the configured threshold (45 by default): the device throttles exactly
    when there is a reading and it is above the threshold; without a
    reading it never does. *)
Theorem throttling_tests_agree cfg temp :
  PowerMonitor.is_thermal_throttling cfg temp
  = DeviceManager.is_thermal_throttling temp (get_default (thermal_threshold_celsius cfg) 45).
Proof.
  unfold PowerMonitor.is_thermal_throttling, PowerMonitor.get_thermal_status,
    DeviceManager.is_thermal_throttling.
  destruct temp as [t |]; [| reflexivity].
  cbn [PowerMonitor.status].
  destruct (Qltb (get_default (thermal_threshold_celsius cfg) 45) t); [reflexivity |].
  destruct (Qltb (get_default (thermal_threshold_celsius cfg) 45 - 5) t); reflexivity.
Qed.

Lemma rules_pass_iff cfg prediction priority temp :
  fst (_apply_scheduling_rules cfg prediction priority temp) = true
  <-> priority = "critical"
      \/ (20 <= current_battery_percent prediction
          /\ safe_to_execute prediction = true
          /\ PowerMonitor.is_thermal_throttling cfg temp = false).
Proof.
  destruct (String.eqb priority "critical") eqn:Ec.
  - apply String.eqb_eq in Ec. subst priority.
    rewrite RulesFacts.critical_passes. cbn. split; auto.
  - unfold _apply_scheduling_rules. rewrite Ec. apply String.eqb_neq in Ec.
    destruct (Qltb (current_battery_percent prediction) 20) eqn:Eb;
      [apply Qltb_lt in Eb | apply Qltb_ge in Eb];
      destruct (safe_to_execute prediction);
      destruct (PowerMonitor.is_thermal_throttling cfg temp); cbn;
      split; try discriminate; auto;
      intros [H | (H1 & H2 & H3)]; try contradiction; try discriminate; lra.
Qed.


(** X8. A task passes the rules exactly when its class is "critical", or
    the battery stands at 20 percent or more, the prediction is safe and the
    device does not throttle. *)
Theorem passes_iff cfg prediction priority temp :
  fst (_apply_scheduling_rules cfg prediction priority temp) = true
  <-> priority = "critical"
      \/ (20 <= current_battery_percent prediction
          /\ safe_to_execute prediction = true
          /\ PowerMonitor.is_thermal_throttling cfg temp = false).
Proof. apply rules_pass_iff. Qed.

(** X9. Without a temperature reading no task is denied for thermal
    reasons. *)
Theorem no_reading_no_thermal_denial cfg prediction priority :
  snd (_apply_scheduling_rules cfg prediction priority None)
    <> "Thermal throttling detected".
Proof.
  unfold _apply_scheduling_rules.
  destruct (Qltb _ 20), (String.eqb priority "critical"), (safe_to_execute prediction);
    cbn; discriminate.
Qed.

(** X10. The classes keep their order whatever the predictions are: the
    bias of 5 for a safe prediction never carries a task past a task of a
    more urgent class. *)
Theorem class_order p1 p2 p3 p4 :
  (_calculate_priority "critical" p1 < _calculate_priority "high" p2
   /\ _calculate_priority "high" p2 < _calculate_priority "normal" p3
   /\ _calculate_priority "normal" p3 < _calculate_priority "low" p4)%Z.
Proof.
  unfold _calculate_priority. cbn.
  destruct (safe_to_execute p1), (safe_to_execute p2),
    (safe_to_execute p3), (safe_to_execute p4); lia.
Qed.

(** X11. A class string that is none of the four names is handled as
    "normal": the rules treat every string other than "critical" alike, and
    the priority map falls back to 50. *)
Theorem unknown_class_is_normal cfg prediction priority temp :
  priority <> "critical" -> priority <> "high" -> priority <> "low" ->
  _apply_scheduling_rules cfg prediction priority temp
    = _apply_scheduling_rules cfg prediction "normal" temp
  /\ _calculate_priority priority prediction = _calculate_priority "normal" prediction.
Proof.
  intros Hc Hh Hl.
  apply String.eqb_neq in Hc, Hh, Hl.
  unfold _apply_scheduling_rules, _calculate_priority, priority_map.
  rewrite Hc, Hh, Hl. cbn.
  destruct (String.eqb priority "normal"); split; reflexivity.
Qed.

(** The class written with a capital letter. *)
Lemma unknown_class_is_normal_witness :
  _apply_scheduling_rules empty_config low_battery_prediction "Critical" hot
    = (false, "Battery below threshold")
  /\ _calculate_priority "Critical" low_battery_prediction = 45%Z.
Proof.
  destruct (unknown_class_is_normal empty_config low_battery_prediction "Critical" hot)
    as [H1 H2]; try discriminate.
  rewrite H1, H2. vm_compute. split; reflexivity.
Defined.

(** X12. Being plugged in makes the prediction safe and does not lift the
    battery rule: below 20 percent a task that is not critical is denied
    with "Battery below threshold" on a charging device as well. *)
Theorem plugged_in_low_battery_denied cfg td h (b : sbattery) priority temp :
  truthy_bool (sb_power_plugged b) = true -> sb_percent b < 20 ->
  priority <> "critical" ->
  safe_to_execute (predict_drain cfg td h (Some b)) = true
  /\ _apply_scheduling_rules cfg (predict_drain cfg td h (Some b)) priority temp
     = (false, "Battery below threshold").
Proof.
  intros Hp Hb Hc. split.
  - unfold predict_drain. cbn [safe_to_execute]. apply safe_plugged. exact Hp.
  - unfold _apply_scheduling_rules, predict_drain. cbn [current_battery_percent].
    cbn [_get_current_battery_state percent].
    apply Qltb_lt in Hb. apply String.eqb_neq in Hc. rewrite Hb, Hc. reflexivity.
Qed.

(** A charging battery at 10 percent. *)
Lemma plugged_in_low_battery_denied_witness :
  safe_to_execute
    (predict_drain empty_config Scheduler.default_description 10 (Some (charging_battery 10)))
  = true
  /\ _apply_scheduling_rules empty_config
       (predict_drain empty_config Scheduler.default_description 10
          (Some (charging_battery 10))) "high" None
     = (false, "Battery below threshold").
Proof.
  apply plugged_in_low_battery_denied.
  - reflexivity.
  - vm_compute. reflexivity.
  - discriminate.
Defined.

End RulesMore.

(** ** Recommended mode, recommended time, batch size *)

Module AdvisorFacts.
Import Predictor Inputs MoreInputs PowerModes Advisor.

(** X13. The recommended mode is "ultra_low_power" exactly when the device
    is not plugged in and the battery reading is present, not zero and below
    20; it is "performance" exactly when the device is plugged in, or does
    not throttle and has no usable battery reading below 50. A reading of
    0.0 counts as no reading. *)
Theorem recommend_power_mode_cases cfg battery_percent battery_plugged temp :
  let battery := PowerMonitor.get_battery_percent battery_percent in
  let plugged := truthy_bool (is_plugged_in battery_plugged) in
  let mode := _recommend_power_mode cfg battery_percent battery_plugged temp in
  (mode = "ultra_low_power"
   <-> plugged = false /\ truthy_float battery = true /\ get_default battery 0 < 20)
  /\ (mode = "performance"
      <-> plugged = true
          \/ (PowerMonitor.is_thermal_throttling cfg temp = false
              /\ (truthy_float battery = false \/ 50 <= get_default battery 0))).
Proof.
  cbv zeta. unfold _recommend_power_mode, PowerMonitor.is_thermal_throttling.
  set (battery := PowerMonitor.get_battery_percent battery_percent).
  destruct (truthy_bool (is_plugged_in battery_plugged)).
  { split; split; try discriminate; auto. intros (H & _); discriminate. }
  destruct (truthy_float battery) eqn:Et; cbn [andb].
  2:{ destruct (String.eqb _ "throttling"); split; split; try discriminate; auto;
        try (intros (_ & H & _); discriminate);
        intros [H | (H & _)]; discriminate. }
  destruct (Qltb (get_default battery 0) 20) eqn:E20;
    [apply Qltb_lt in E20 | apply Qltb_ge in E20].
  { split; split; try discriminate; auto.
    intros [H | (_ & [H | H])]; try discriminate; lra. }
  destruct (String.eqb _ "throttling").
  { split; split; try discriminate; try (intros (_ & _ & H); lra).
    intros [H | (H & _)]; discriminate. }
  destruct (Qltb (get_default battery 0) 50) eqn:E50;
    [apply Qltb_lt in E50 | apply Qltb_ge in E50];
    split; split; try discriminate; auto; try (intros (_ & _ & H); lra).
  intros [H | (_ & [H | H])]; try discriminate; lra.
Qed.

(** X14. The recommendation is "now" exactly when the device is plugged in,
    or the thermal status is "normal" and the battery either is above 50
    percent or is at 20 percent or more during the hours 1 to 6. *)
Theorem recommended_now_iff cfg battery temp current_hour :
  let st := _get_current_battery_state battery in
  let ok := String.eqb (PowerMonitor.status (PowerMonitor.get_thermal_status cfg temp)) "normal" in
  recommended (get_optimal_execution_time cfg battery temp current_hour) = "now"
  <-> truthy_bool (plugged_in st) = true
      \/ (ok = true
          /\ (50 < percent st \/ (20 <= percent st /\ (1 <= current_hour <= 6)%Z))).
Proof.
  cbv zeta. unfold get_optimal_execution_time.
  set (st := _get_current_battery_state battery).
  set (ok := String.eqb _ "normal").
  destruct (truthy_bool (plugged_in st)); [cbn; split; auto |].
  destruct (Qltb 50 (percent st)) eqn:E50;
    [apply Qltb_lt in E50 | apply Qltb_ge in E50];
    destruct ok; cbn [andb negb recommended].
  - split; auto.
  - destruct (Qltb (percent st) 20); cbn; split; try discriminate;
      intros [H | (H & _)]; discriminate.
  - destruct (Qltb (percent st) 20) eqn:E20;
      [apply Qltb_lt in E20 | apply Qltb_ge in E20].
    + cbn. split; [discriminate |].
      intros [H | (_ & [H | (H & _)])]; try discriminate; lra.
    + destruct (1 <=? current_hour)%Z eqn:E1, (current_hour <=? 6)%Z eqn:E6; cbn;
        rewrite ?Z.leb_le, ?Z.leb_gt in E1, E6; split; try discriminate; auto;
        try (intros [H | (_ & [H | (_ & H)])]; try discriminate; try lra; lia).
      intros _. right. split; [reflexivity |]. right. split; [exact E20 | lia].
  - destruct (Qltb (percent st) 20); cbn; split; try discriminate;
      intros [H | (H & _)]; discriminate.
Qed.

(** X15. Where the temperature cannot be read the thermal status is
    "unknown", which is not "normal": a device that is not plugged in is
    told "when_charging" below 20 percent and "after_cooling" from 20
    percent on, whatever the hour. *)
Theorem no_reading_recommendation cfg battery current_hour :
  truthy_bool (plugged_in (_get_current_battery_state battery)) = false ->
  recommended (get_optimal_execution_time cfg battery None current_hour)
  = if Qltb (percent (_get_current_battery_state battery)) 20
    then "when_charging" else "after_cooling".
Proof.
  intros Hp. unfold get_optimal_execution_time. rewrite Hp.
  cbn [PowerMonitor.get_thermal_status PowerMonitor.status].
  change (String.eqb "unknown" "normal") with false.
  rewrite andb_false_r. destruct (Qltb _ 20); reflexivity.
Qed.

(** No battery sensor either: the fallback state stands at 80 percent. *)
Lemma no_reading_recommendation_witness :
  recommended (get_optimal_execution_time empty_config None None 3) = "after_cooling".
Proof.
  rewrite no_reading_recommendation; reflexivity.
Defined.

(** X16. The recommended batch size is one of 1, 2, 4 and 8, and more
    available memory never gives a smaller one. *)
Theorem batch_size_monotone (m1 m2 : Q) :
  m1 <= m2 ->
  let b1 := DeviceManager._calculate_recommended_batch_size (Some m1) in
  let b2 := DeviceManager._calculate_recommended_batch_size (Some m2) in
  (b1 <= b2)%Z /\ (b1 = 1 \/ b1 = 2 \/ b1 = 4 \/ b1 = 8)%Z.
Proof.
  intros Hle. cbv zeta. unfold DeviceManager._calculate_recommended_batch_size.
  cbn [get_default].
  destruct (Qltb 4096 m1) eqn:A1, (Qltb 2048 m1) eqn:B1, (Qltb 1024 m1) eqn:C1,
    (Qltb 4096 m2) eqn:A2, (Qltb 2048 m2) eqn:B2, (Qltb 1024 m2) eqn:C2;
    repeat match goal with
           | H : Qltb _ _ = true |- _ => apply Qltb_lt in H
           | H : Qltb _ _ = false |- _ => apply Qltb_ge in H
           end;
    (split; [first [lia | exfalso; lra] | lia]).
Qed.

(** 1.5 GB and 3 GB of available memory. *)
Lemma batch_size_monotone_witness :
  (DeviceManager._calculate_recommended_batch_size (Some 1536%Q)
   <= DeviceManager._calculate_recommended_batch_size (Some 3072%Q))%Z.
Proof.
  apply (batch_size_monotone 1536 3072). vm_compute. discriminate.
Defined.

End AdvisorFacts.

(** ** Further properties of the scheduler *)

Module SchedulerMore.
Import Predictor Rules Scheduler Inputs MoreInputs RunVocabulary SchedulerFacts.

Lemma schedule_frame cfg s f p d r :
  let s' := fst (fst (schedule cfg s f p d r)) in
  history s' = history s /\ pc s' = pc s /\ is_running s' = is_running s.
Proof.
  cbv zeta. unfold schedule.
  destruct (_apply_scheduling_rules _ _ _ _) as [should why].
  destruct (PriorityQueue.put _ _ _) as [q [x |]]; cbn; auto.
Qed.

(** X17. Every call of [schedule] adds exactly one entry to the queue, the
    task it has built, whether the task passes the rules or not and whether
    the call returns an id or ends with the exception of [put]; the call
    leaves the calibration history and the loop thread alone. *)
Theorem schedule_adds_one_entry cfg s f p d r :
  let s' := fst (fst (schedule cfg s f p d r)) in
  length (task_queue s') = S (length (task_queue s))
  /\ (forall t, t ∈ created (snd (schedule cfg s f p d r)) -> t ∈ snd <$> task_queue s')
  /\ history s' = history s /\ pc s' = pc s /\ is_running s' = is_running s.
Proof.
  cbv zeta. split; [| split; [| apply schedule_frame]].
  - unfold schedule.
    destruct (_apply_scheduling_rules _ _ _ _) as [should why].
    set (e := (_calculate_priority _ _, _)). cbn [task_queue].
    pose proof (put_Permutation (task_queue s) e) as Hp.
    apply Permutation_length in Hp.
    destruct (PriorityQueue.put entry_lt (task_queue s) e) as [q [x |]];
      cbn in *; auto.
  - unfold schedule.
    destruct (_apply_scheduling_rules _ _ _ _) as [should why].
    set (e := (_calculate_priority _ _, _)). cbn [task_queue].
    pose proof (put_Permutation (task_queue s) e) as Hp.
    destruct (PriorityQueue.put entry_lt (task_queue s) e) as [q [x |]];
      cbn [fst snd] in *; intros t Ht; cbn in Ht;
      apply list_elem_of_singleton in Ht as ->;
      cbn [task_queue set_queue]; rewrite Hp, fmap_cons; left.
Qed.




Lemma schedule_quiet cfg s f p d r :
  history (fst (fst (schedule cfg s f p d r))) = history s
  /\ completed (snd (schedule cfg s f p d r)) = []
  /\ invoked (snd (schedule cfg s f p d r)) = [].
Proof.
  unfold schedule.
  destruct (_apply_scheduling_rules _ _ _ _) as [should why].
  destruct (PriorityQueue.put _ _ _) as [q [x |]]; cbn; auto.
Qed.





Lemma retry_two_steps s r p t :
  pc s = AtHead -> is_running s = true -> task_queue s = [(p, t)] ->
  should_execute t = false -> (priority t < 50)%Z ->
  run_two s r = (set_queue s [((p + 1)%Z, t)], retry_round t).
Proof.
  intros Hpc Hrun Hq Hx Hp. unfold run_two, loop_step.
  rewrite Hpc, Hrun, Hq. cbn.
  unfold _should_retry. apply Z.ltb_lt in Hp. rewrite Hx, Hp. cbn.
  destruct s; cbn in *; subst. reflexivity.
Qed.

(** X19. A denied task whose stored priority is below 50 is retried without
    end. Alone in the queue, it is back there after every two steps of the
    loop thread with its key raised by 1; each round keeps the thread asleep
    for 61 seconds, and the function is never called. *)
Theorem retried_without_end n : forall s r p t,
  pc s = AtHead -> is_running s = true -> task_queue s = [(p, t)] ->
  should_execute t = false -> (priority t < 50)%Z ->
  run_rounds n s r
  = (set_queue s [((p + Z.of_nat n)%Z, t)], mjoin (replicate n (retry_round t))).
Proof.
  induction n as [| n IH]; intros s r p t Hpc Hrun Hq Hx Hp.
  - cbn. rewrite Z.add_0_r. destruct s; cbn in *; subst. reflexivity.
  - cbn [run_rounds]. rewrite (retry_two_steps s r p t) by assumption.
    rewrite (IH (set_queue s [((p + 1)%Z, t)]) r (p + 1)%Z t) by (cbn; auto).
    cbn [replicate mjoin list_join]. f_equal.
    replace (p + 1 + Z.of_nat n)%Z with (p + Z.of_nat (S n))%Z by lia.
    reflexivity.
Qed.

(** Three rounds of the task of [high_denied]. *)
Lemma retried_without_end_witness :
  run_rounds 3 (fst (run empty_config init (firstn 2 high_denied))) (reads_exec 90 90 Returns)
  = (set_queue (fst (run empty_config init (firstn 2 high_denied))) [(13%Z, denied_task)],
     retry_round denied_task ++ retry_round denied_task ++ retry_round denied_task).
Proof.
  rewrite (retried_without_end 3 _ (reads_exec 90 90 Returns) 10%Z denied_task);
    vm_compute; reflexivity.
Defined.



(** X21. The loop never changes a task: in every run from the initial
    state, a task that is queued, or held by the thread for a retry, is key
    for key a dict that [schedule] built, with the verdict, the reason and
    the priority stored then. *)
Theorem queued_tasks_are_as_built cfg acts t :
  t ∈ live (fst (run cfg init acts)) -> Created t ∈ snd (run cfg init acts).
Proof.
  intros Ht. apply created_elem.
  apply (inv_live_created _ _ (Inv_run_init cfg acts)), Ht.
Qed.

(** The task of [high_denied] after two retries. *)
Lemma queued_tasks_are_as_built_witness :
  denied_task ∈ live (fst (run empty_config init high_denied))
  /\ Created denied_task ∈ snd (run empty_config init high_denied).
Proof.
  assert (H : denied_task ∈ live (fst (run empty_config init high_denied)))
    by (vm_compute; apply list_elem_of_here).
  split; [exact H | exact (queued_tasks_are_as_built empty_config high_denied denied_task H)].
Defined.

Lemma apply_key_ok cfg s a :
  Forall key_ok (entries s) -> Forall key_ok (entries (fst (apply cfg s a))).
Proof.
  unfold entries. intros Hin.
  destruct a as [| | f p d r | r]; cbn [apply].
  - unfold start. destruct (is_running s); [exact Hin |].
    apply Forall_app in Hin as [_ Hq]. unfold held. cbn. exact Hq.
  - destruct (pc s) eqn:Epc; cbn [fst]; unfold held, stop in *; cbn;
      rewrite Epc in *; exact Hin.
  - unfold schedule.
    destruct (_apply_scheduling_rules _ _ _ _) as [should why].
    set (t := {| obj := next_obj s; id := _ |}).
    set (pv := _calculate_priority _ _). cbn [task_queue].
    pose proof (put_Permutation (task_queue s) (pv, t)) as Hp.
    destruct (PriorityQueue.put entry_lt (task_queue s) (pv, t)) as [q [x |]];
      cbn [fst snd] in *; unfold held in *; cbn [pc set_queue task_queue];
      apply Forall_app in Hin as [Hh Hq]; apply Forall_app; (split; [exact Hh |]);
      rewrite Hp; constructor; try exact Hq; unfold key_ok; cbn; lia.
  - unfold loop_step. unfold held in *.
    destruct (pc s) as [| | e | | x] eqn:Epc; cbn [fst]; try (rewrite Epc; exact Hin).
    + cbn [app] in Hin.
      destruct (is_running s); cbn [negb]; [| cbn; exact Hin].
      destruct (PriorityQueue.empty (task_queue s)); [cbn [fst]; rewrite Epc; exact Hin |].
      pose proof (get_Permutation (task_queue s)) as Hg.
      destruct (PriorityQueue.get entry_lt (task_queue s)) as [| x q | [p t] q].
      * cbn [fst]. rewrite Epc. exact Hin.
      * destruct Hg as [y Hg]. rewrite Hg in Hin. apply Forall_cons in Hin as [_ Hq].
        cbn. exact Hq.
      * rewrite Hg in Hin. apply Forall_cons in Hin as [Hk Hq].
        destruct (should_execute t).
        -- destruct (_execute_task (history s) t r) as [h [evs [e |]]]; cbn;
             rewrite ?Epc; exact Hq.
        -- destruct (_should_retry t); cbn.
           ++ constructor; [| exact Hq]. unfold key_ok in *. cbn in *. lia.
           ++ rewrite Epc. exact Hq.
    + apply Forall_app in Hin as [He Hq]. apply Forall_cons in He as [He _].
      pose proof (put_Permutation (task_queue s) e) as Hp.
      destruct (PriorityQueue.put entry_lt (task_queue s) e) as [q [x |]];
        cbn [fst snd] in *; cbn; rewrite Hp; constructor; assumption.
Qed.

Lemma run_key_ok cfg acts : forall s,
  Forall key_ok (entries s) -> Forall key_ok (entries (fst (run cfg s acts))).
Proof.
  induction acts as [| a acts IH]; intros s Hs; cbn [run]; [exact Hs |].
  pose proof (apply_key_ok cfg s a Hs) as Ha.
  destruct (apply cfg s a) as [s1 evs1]. cbn [fst] in Ha.
  specialize (IH s1 Ha). destruct (run cfg s1 acts) as [s2 evs2]. exact IH.
Qed.

(** X22. Deferral only ever lowers the urgency of a task: in every run from
    the initial state, the key under which a task is queued or held is the
    priority stored in the task or a larger number. *)
Theorem queue_key_never_below_priority cfg acts e :
  e ∈ entries (fst (run cfg init acts)) -> (priority (snd e) <= fst e)%Z.
Proof.
  intros He.
  assert (H0 : Forall key_ok (entries init)) by constructor.
  pose proof (run_key_ok cfg acts init H0) as H.
  rewrite Forall_forall in H. apply H, He.
Qed.

(** The entry of [high_denied] after two retries: key 12, priority 10. *)
Lemma queue_key_never_below_priority_witness :
  (12%Z, denied_task) ∈ entries (fst (run empty_config init high_denied))
  /\ (priority denied_task <= 12)%Z.
Proof.
  assert (H : (12%Z, denied_task) ∈ entries (fst (run empty_config init high_denied)))
    by (vm_compute; apply list_elem_of_here).
  split; [exact H |].
  exact (queue_key_never_below_priority empty_config high_denied _ H).
Defined.

(** X23. A submission of class "critical" is never denied: the task is
    built with the flag set, the reason "Critical priority overrides
    constraints" and the priority -5 or 0, whatever the battery and the
    temperature are. *)
Theorem critical_submission_is_executable cfg s f d r t :
  t ∈ created (snd (schedule cfg s f "critical" d r)) ->
  should_execute t = true
  /\ reason t = "Critical priority overrides constraints"
  /\ (priority t = -5 \/ priority t = 0)%Z.
Proof.
  intros Ht. destruct (schedule_created cfg s f "critical" d r t Ht) as (_ & _ & _ & Hv & Hp).
  rewrite RulesFacts.critical_passes in Hv. injection Hv as -> ->.
  split; [reflexivity |]. split; [reflexivity |].
  rewrite Hp. unfold _calculate_priority. change (priority_map "critical") with 0%Z.
  match goal with |- context [safe_to_execute ?p] => destruct (safe_to_execute p) end; auto.
Qed.

(** A critical submission on a battery at 15 percent, not plugged in. *)
Lemma critical_submission_is_executable_witness :
  exists t,
    created (snd (schedule empty_config init 1%nat "critical" None (reads_on 15))) = [t]
    /\ should_execute t = true /\ priority t = 0%Z.
Proof.
  eexists. split; [vm_compute; reflexivity |].
  match goal with |- should_execute ?t = _ /\ _ =>
    destruct (critical_submission_is_executable empty_config init 1%nat None (reads_on 15) t)
      as (H1 & _ & _) end.
  - vm_compute. apply list_elem_of_here.
  - split; [exact H1 | reflexivity].
Defined.

Lemma default_drain h (st : BatteryState) :
  truthy_bool (plugged_in st) = false -> 20 <= percent st ->
  _run_prediction (_extract_features default_description h) st == 21 # 20.
Proof.
  intros Hp Hb. rewrite PredictorFacts.run_prediction_eq.
  unfold scale. rewrite Hp. apply Qltb_ge in Hb. rewrite Hb.
  vm_compute. reflexivity.
Qed.

(** X24. Through [BatteryScheduler.schedule_task], which passes no
    description on, with the default threshold and a battery that is not
    plugged in, a task that is not critical passes exactly when the battery
    stands at 21.05 percent or more and the device does not throttle. *)
Theorem facade_admission_threshold cfg s f priority r (b : sbattery) t :
  battery_threshold_percent cfg = None ->
  sr_battery r = Some b -> truthy_bool (sb_power_plugged b) = false ->
  priority <> "critical" ->
  t ∈ created (snd (Advisor.schedule_task cfg s f priority r)) ->
  (should_execute t = true
   <-> 421 # 20 <= sb_percent b
       /\ PowerMonitor.is_thermal_throttling cfg (sr_temp r) = false).
Proof.
  intros Hcfg Hb Hp Hc Ht. unfold Advisor.schedule_task in Ht.
  destruct (schedule_created cfg s f priority None r t Ht) as (_ & _ & _ & Hv & _).
  cbn [get_default] in Hv.
  assert (Hx : should_execute t
               = fst (_apply_scheduling_rules cfg
                        (predict_drain cfg default_description (sr_tm_hour r) (sr_battery r))
                        priority (sr_temp r))) by (rewrite <- Hv; reflexivity).
  rewrite Hx, RulesMore.rules_pass_iff, Hb. clear Hx Hv Ht.
  unfold predict_drain. cbn [current_battery_percent safe_to_execute].
  set (st := _get_current_battery_state (Some b)).
  assert (Hst : percent st = sb_percent b) by reflexivity.
  assert (Hpl : truthy_bool (plugged_in st) = false) by exact Hp.
  rewrite Hst. rewrite (PredictorFacts.safe_unplugged cfg _ st Hpl), Hcfg, Hst.
  cbn [get_default].
  split.
  - intros [H | (H20 & Hs & Hth)]; [contradiction |].
    rewrite <- Hst in H20. pose proof (default_drain (sr_tm_hour r) st Hpl H20) as Hd.
    rewrite Hst in H20.
    split; [lra | exact Hth].
  - intros [H Hth]. right.
    assert (H20 : 20 <= percent st) by (rewrite Hst; lra).
    pose proof (default_drain (sr_tm_hour r) st Hpl H20) as Hd.
    repeat split; [lra | lra | exact Hth].
Qed.

(** A High task on a battery at 21 percent: denied, 0.05 points short. *)
Lemma facade_admission_threshold_witness :
  exists t,
    created (snd (Advisor.schedule_task empty_config init 1%nat "high" (reads_on 21))) = [t]
    /\ should_execute t = false.
Proof.
  eexists. split; [vm_compute; reflexivity |].
  match goal with |- should_execute ?t = false =>
    assert (Hin : t ∈ created (snd (Advisor.schedule_task empty_config init 1%nat "high"
                                      (reads_on 21))))
      by (vm_compute; apply list_elem_of_here);
    assert (Hne : "high" <> "critical") by discriminate;
    pose proof (facade_admission_threshold empty_config init 1%nat "high" (reads_on 21)
                  (cold_battery 21) t eq_refl eq_refl eq_refl Hne Hin) as H
  end.
  destruct (should_execute _) eqn:E; [| reflexivity].
  exfalso. destruct H as [H _]. destruct (H eq_refl) as [Hle _].
  vm_compute in Hle. apply Hle. reflexivity.
Defined.

Lemma crashed_step cfg s a e :
  pc s = Crashed e -> is_running s = true -> a <> Stop ->
  pc (fst (apply cfg s a)) = Crashed e
  /\ is_running (fst (apply cfg s a)) = true
  /\ invoked (snd (apply cfg s a)) = [].
Proof.
  intros Hpc Hrun Ha. destruct a as [| | f p d r | r]; cbn [apply].
  - unfold start. rewrite Hrun. cbn. auto.
  - contradiction.
  - destruct (schedule_frame cfg s f p d r) as (_ & H1 & H2).
    destruct (schedule_quiet cfg s f p d r) as (_ & _ & H3).
    destruct (schedule cfg s f p d r) as [[s' res] evs]. cbn [fst snd] in *.
    rewrite H1, H2. auto.
  - unfold loop_step. rewrite Hpc. cbn. auto.
Qed.

(** X25. Once an exception has ended the loop thread, the flag
    [is_running] is still set, so that [start] spawns no new thread: as long
    as [stop] is not called, no task function is called any more, whatever is
    submitted. *)
Theorem crashed_loop_stays_dead cfg acts : forall s e,
  pc s = Crashed e -> is_running s = true -> Stop ∉ acts ->
  pc (fst (run cfg s acts)) = Crashed e
  /\ invoked (snd (run cfg s acts)) = [].
Proof.
  induction acts as [| a acts IH]; intros s e Hpc Hrun Hns; cbn [run].
  - cbn. auto.
  - assert (Ha : a <> Stop) by (intros ->; apply Hns; left).
    assert (Hacts : Stop ∉ acts) by (intros H; apply Hns; right; exact H).
    destruct (crashed_step cfg s a e Hpc Hrun Ha) as (H1 & H2 & H3).
    destruct (apply cfg s a) as [s1 evs1]. cbn [fst snd] in *.
    destruct (IH s1 e H1 H2 Hacts) as [H4 H5].
    destruct (run cfg s1 acts) as [s2 evs2]. cbn [fst snd] in *.
    rewrite invoked_app, H3, H5. auto.
Qed.

(** Three tasks under the same key: the first [get] compares two of them,
    the thread ends with [TypeError], and nothing is executed afterwards. *)
Lemma crashed_loop_stays_dead_witness :
  pc (fst (run empty_config init three_normal)) = Crashed TypeError
  /\ invoked (snd (run empty_config init three_normal)) = []
  /\ invoked (snd (run empty_config (fst (run empty_config init three_normal)) carry_on)) = [].
Proof.
  split; [vm_compute; reflexivity |]. split; [vm_compute; reflexivity |].
  apply (crashed_loop_stays_dead empty_config carry_on _ TypeError).
  - vm_compute. reflexivity.
  - vm_compute. reflexivity.
  - unfold carry_on. intros H.
    repeat (apply elem_of_cons in H as [H | H]; [discriminate H |]).
    inversion H.
Defined.

End SchedulerMore.

(** ** Monitoring over a period *)

Module MonitoringFacts.
Import Monitoring.

Lemma sampling_loop_count clock : forall start duration n m,
  sampling_loop clock start duration n = Some m ->
  (n <= m <= n + length clock)%nat
  /\ sampling_loop clock start duration 0 = Some (m - n)%nat.
Proof.
  induction clock as [| now clock IH]; intros start duration n m H; cbn in *;
    [discriminate |].
  destruct (Qltb (now - start) duration).
  - destruct (IH _ _ _ _ H) as [Hb H0]. split; [lia |].
    destruct (sampling_loop clock start duration 1) as [k |] eqn:E.
    + destruct (IH _ _ _ _ E) as [Hk Hk0]. rewrite Hk0 in H0.
      injection H0 as H0. f_equal. lia.
    + destruct (sampling_loop clock start duration 0) as [k |] eqn:E0; [| discriminate].
      exfalso. revert E E0. clear. revert k.
      generalize 0%nat at 2 as a. generalize 1%nat as b.
      induction clock as [| c clock IHc]; intros b a k E E0; cbn in *; [discriminate |].
      destruct (Qltb (c - start) duration); [eauto | discriminate].
  - injection H as <-. split; [lia |]. f_equal. lia.
Qed.

(** X26. A period that is zero or negative takes no sample when the clock
    does not run backwards; with a period of zero and two usable battery
    readings the call ends in [ZeroDivisionError], and otherwise it reports
    zero samples. *)
Theorem monitor_without_period duration (r : monitor_reads) now clock :
  duration <= 0 -> mr_clock r = now :: clock -> mr_start_time r <= now ->
  let usable :=
    truthy_float (PowerMonitor.get_battery_percent (mr_initial r))
    && truthy_float (PowerMonitor.get_battery_percent (mr_final r)) in
  match monitor_power_consumption duration r with
  | StillSampling => False
  | ZeroDivisionError => duration == 0 /\ usable = true
  | Report report => samples report = 0%nat /\ (duration == 0 -> usable = false)
  end.
Proof.
  intros Hd Hc Hs. cbv zeta. unfold monitor_power_consumption. rewrite Hc.
  cbn [sampling_loop].
  assert (E : Qltb (now - mr_start_time r) duration = false) by (apply Qltb_ge; lra).
  rewrite E.
  destruct (truthy_float (PowerMonitor.get_battery_percent (mr_initial r))
            && truthy_float (PowerMonitor.get_battery_percent (mr_final r))).
  - destruct (Qeq_bool duration 0) eqn:Ez.
    + apply Qeq_bool_iff in Ez. auto.
    + cbn. split; [reflexivity |]. intros H. apply Qeq_bool_iff in H. congruence.
  - cbn. auto.
Qed.

(** A period of zero on the battery of [monitor_demo]. *)
Lemma monitor_without_period_witness :
  monitor_power_consumption 0 (monitor_demo [100 + (1 # 1000)]) = ZeroDivisionError.
Proof.
  pose proof (monitor_without_period 0 (monitor_demo [100 + (1 # 1000)])
                (100 + (1 # 1000)) []) as H.
  cbv zeta in H.
  destruct (monitor_power_consumption 0 (monitor_demo [100 + (1 # 1000)])) as [| | rep] eqn:E.
  - exfalso. apply H; [vm_compute; discriminate | reflexivity | vm_compute; discriminate].
  - reflexivity.
  - exfalso. destruct H as [_ H]; [vm_compute; discriminate | reflexivity
                                  | vm_compute; discriminate |].
    specialize (H (Qeq_refl 0)). vm_compute in H. discriminate H.
Defined.

(** X27. The number of samples reported is the number of tests of the clock
    that found the period not yet over: every sample follows a test made
    strictly before the end of the period, and the loop ends at the first
    test that finds the period over. *)
Theorem monitor_samples_bound duration (r : monitor_reads) report :
  monitor_power_consumption duration r = Report report ->
  (samples report < length (mr_clock r))%nat
  /\ (forall i now, (i < samples report)%nat -> mr_clock r !! i = Some now ->
      now - mr_start_time r < duration)
  /\ (exists now, mr_clock r !! samples report = Some now
                  /\ duration <= now - mr_start_time r).
Proof.
  unfold monitor_power_consumption.
  destruct (sampling_loop (mr_clock r) (mr_start_time r) duration 0) as [n |] eqn:E;
    [| discriminate].
  intros H.
  assert (Hn : samples report = n).
  { destruct (truthy_float _ && truthy_float _); [destruct (Qeq_bool duration 0) |];
      try discriminate; injection H as <-; reflexivity. }
  rewrite Hn. clear H Hn report.
  revert E. generalize (mr_clock r) as clock. generalize (mr_start_time r) as start.
  intros start clock. revert n.
  induction clock as [| c clock IH]; intros n E; cbn in E; [discriminate |].
  destruct (Qltb (c - start) duration) eqn:Ec.
  - destruct (sampling_loop_count clock start duration 1 n E) as [Hb E0].
    destruct (IH _ E0) as (H1 & H2 & now & H3 & H4).
    split; [cbn; lia |]. split.
    + intros i x Hi Hx. destruct i as [| i]; cbn in Hx.
      * injection Hx as <-. apply Qltb_lt, Ec.
      * apply (H2 i x); [lia | exact Hx].
    + exists now. split; [| exact H4].
      replace n with (S (n - 1)) by lia. exact H3.
  - injection E as <-. split; [cbn; lia |]. split.
    + intros i x Hi. lia.
    + exists c. split; [reflexivity | apply Qltb_ge, Ec].
Qed.

(** Three tests of the clock during a period of one second. *)
Lemma monitor_samples_bound_witness :
  monitor_power_consumption 1 (monitor_demo [100; 100 + (1 # 2); 101]) = Report demo_report
  /\ (samples demo_report < 3)%nat.
Proof.
  assert (H : monitor_power_consumption 1 (monitor_demo [100; 100 + (1 # 2); 101])
              = Report demo_report) by reflexivity.
  split; [exact H |].
  exact (proj1 (monitor_samples_bound 1 (monitor_demo [100; 100 + (1 # 2); 101])
                  demo_report H)).
Defined.

End MonitoringFacts.
